(** * servicenow_mcp.tools.catalog_tools: a shallow embedding

    The Python module [catalog_tools.py] is a set of adapters that turn
    structured parameters into REST calls and reshape the JSON answers.
    This file embeds the operations of the module: the four the
    specification makes claims about ([list_catalog_items],
    [get_catalog_item], [move_catalog_items], [submit_catalog_request])
    and the three category operations ([list_catalog_categories],
    [create_catalog_category], [update_catalog_category]), and states
    properties over that embedding.

    Modelling choices.
    - A Python value obtained from [response.json()] is a [json] term;
      [None] is [JNull].  JSON numbers are taken to be integers (nothing
      below depends on a fractional one).  A [dict] is an
      association list in insertion order whose first binding of a key is
      the one [get] returns.
    - [requests.get/post/patch] followed by [raise_for_status()] (and
      [.json()] where the code calls it) is one question to a [transport]:
      it either fails with a [RequestException] carrying its text, or
      answers with the parsed JSON body.  The transport sees the calls
      issued so far, so the same URL may be answered differently twice.
    - The pydantic models become records; [GetCatalogItemParams.item_id]
      is the projection [gci_item_id], the name [item_id] being taken by
      [SubmitCatalogRequestParams].
    - Every operation runs in the monad [M], which threads the log of
      outbound calls and propagates Python exceptions.
    - [logger] calls have no effect on the returned value and are left out.
    - Line 593 of the source carries a stray closing bracket after the
      [Accept] header assignment; the statement is embedded as the three
      sibling operations write it. *)

From Stdlib Require Import String Ascii List ZArith Bool Lia DecimalString.
Import ListNotations.

Local Set Warnings "-register-all".
Local Open Scope string_scope.
Local Open Scope list_scope.

(** ** Python values *)

Inductive json : Type :=
| JNull
| JBool (b : bool)
| JNum (n : Z)
| JStr (s : string)
| JList (l : list json)
| JObj (kv : list (string * json)).

Definition dict := list (string * json).

(** Python exceptions that the embedded code can meet; each carries the
    text [str(e)] yields. *)
Inductive exn : Type :=
| RequestException (msg : string)
| RuntimeError (msg : string)
| AttributeError (msg : string)
| TypeError (msg : string)
| KeyError (msg : string)
| IndexError (msg : string).

Definition exn_str (e : exn) : string :=
  match e with
  | RequestException m | RuntimeError m | AttributeError m
  | TypeError m | KeyError m | IndexError m => m
  end.

Definition is_request_exception (e : exn) : bool :=
  match e with RequestException _ => true | _ => false end.

Module Py.

(** f-string: the pieces, already formatted, glued together. *)
Definition fstr (parts : list string) : string := String.concat "" parts.

Definition str_of_int (z : Z) : string := NilZero.string_of_int (Z.to_int z).

(** [bool(v)]. *)
Definition truthy (v : json) : bool :=
  match v with
  | JNull => false
  | JBool b => b
  | JNum n => negb (Z.eqb n 0)
  | JStr s => negb (String.eqb s "")
  | JList l => match l with [] => false | _ => true end
  | JObj kv => match kv with [] => false | _ => true end
  end.

(** [a or b]. *)
Definition or_ (a b : json) : json := if truthy a then a else b.

(** [v == "lit"] for a string literal. *)
Definition eq_str (v : json) (lit : string) : bool :=
  match v with JStr s => String.eqb s lit | _ => false end.

Definition type_name (v : json) : string :=
  match v with
  | JNull => "NoneType"
  | JBool _ => "bool"
  | JNum _ => "int"
  | JStr _ => "str"
  | JList _ => "list"
  | JObj _ => "dict"
  end.

Fixpoint dict_get (d : dict) (k : string) : option json :=
  match d with
  | [] => None
  | (k', v) :: d' => if String.eqb k' k then Some v else dict_get d' k
  end.

(** [d[k] = v]: overwrite in place, or append. *)
Fixpoint dict_set {V : Type} (d : list (string * V)) (k : string) (v : V)
  : list (string * V) :=
  match d with
  | [] => [(k, v)]
  | (k', v') :: d' =>
      if String.eqb k' k then (k, v) :: d' else (k', v') :: dict_set d' k v
  end.

(** [v.get(k, default)]; only a dict has the method. *)
Definition get (v : json) (k : string) (default : json) : exn + json :=
  match v with
  | JObj d => inr (match dict_get d k with Some x => x | None => default end)
  | _ => inl (AttributeError
                (fstr ["'"; type_name v; "' object has no attribute 'get'"]))
  end.

(** [v[0]] for a value already known to be truthy. *)
Definition index0 (v : json) : exn + json :=
  match v with
  | JList (x :: _) => inr x
  | JList [] => inl (IndexError "list index out of range")
  | JStr (String c _) => inr (JStr (String c EmptyString))
  | JStr EmptyString => inl (IndexError "string index out of range")
  | JObj _ => inl (KeyError "0")
  | _ => inl (TypeError (fstr ["'"; type_name v; "' object is not subscriptable"]))
  end.

Fixpoint chars (s : string) : list json :=
  match s with
  | EmptyString => []
  | String c s' => JStr (String c EmptyString) :: chars s'
  end.

(** The values a [for] loop over [v] visits. *)
Definition iter (v : json) : exn + list json :=
  match v with
  | JList l => inr l
  | JObj kv => inr (map (fun p => JStr (fst p)) kv)
  | JStr s => inr (chars s)
  | _ => inl (TypeError (fstr ["'"; type_name v; "' object is not iterable"]))
  end.

(** [repr] of a string: single quotes unless the text holds a single
    quote and no double quote; backslash, the chosen quote and control
    characters escaped. *)
Definition dquote : ascii := ascii_of_nat 34.
Definition squote : ascii := ascii_of_nat 39.
Definition backslash : ascii := ascii_of_nat 92.

Fixpoint mem_char (c : ascii) (s : string) : bool :=
  match s with
  | EmptyString => false
  | String c' s' => Ascii.eqb c c' || mem_char c s'
  end.

Definition hex_digit (n : nat) : ascii :=
  match String.get n "0123456789abcdef" with Some c => c | None => "0"%char end.

Definition escape_char (q c : ascii) : string :=
  let n := nat_of_ascii c in
  if Ascii.eqb c backslash then String backslash (String backslash EmptyString)
  else if Ascii.eqb c q then String backslash (String q EmptyString)
  else if Nat.eqb n 9 then String backslash "t"
  else if Nat.eqb n 10 then String backslash "n"
  else if Nat.eqb n 13 then String backslash "r"
  else if Nat.ltb n 32 || Nat.eqb n 127 then
    String backslash
      (String "x" (String (hex_digit (n / 16)) (String (hex_digit (n mod 16)) EmptyString)))
  else String c EmptyString.

Fixpoint escape (q : ascii) (s : string) : string :=
  match s with
  | EmptyString => EmptyString
  | String c s' => escape_char q c ++ escape q s'
  end.

Definition repr_str (s : string) : string :=
  let q := if mem_char squote s && negb (mem_char dquote s) then dquote else squote in
  String q (escape q s ++ String q EmptyString).

Fixpoint repr (v : json) : string :=
  match v with
  | JNull => "None"
  | JBool true => "True"
  | JBool false => "False"
  | JNum n => str_of_int n
  | JStr s => repr_str s
  | JList l =>
      fstr ["["; String.concat ", " (map repr l); "]"]
  | JObj kv =>
      fstr ["{";
            String.concat ", "
              (map (fun p => fstr [repr_str (fst p); ": "; repr (snd p)]) kv);
            "}"]
  end.

(** [str(v)], which is what an f-string placeholder inserts. *)
Definition str (v : json) : string :=
  match v with JStr s => s | _ => repr v end.

Definition len {A : Type} (l : list A) : Z := Z.of_nat (length l).

End Py.

(** ** Outbound calls and the monad of the adapters *)

Inductive http_method : Type := GET | POST | PATCH.

Record call : Type := mk_call {
  c_method : http_method;
  c_url : string;
  c_headers : list (string * string);
  c_params : option dict;
  c_json : option json;
}.

Inductive reply : Type :=
| Failed (msg : string)
| Response (body : json).

(** The remote side: given the calls already made and the new one, its answer. *)
Definition transport : Type := list call -> call -> reply.

Definition M (A : Type) : Type := transport -> list call -> list call * (exn + A).

Definition ret {A : Type} (a : A) : M A := fun _ log => (log, inr a).

Definition bind {A B : Type} (m : M A) (f : A -> M B) : M B :=
  fun t log =>
    match m t log with
    | (log', inl e) => (log', inl e)
    | (log', inr a) => f a t log'
    end.

Definition raise {A : Type} (e : exn) : M A := fun _ log => (log, inl e).

Definition lift {A : Type} (r : exn + A) : M A := fun _ log => (log, r).

(** One request: logged, then answered or failed by the transport. *)
Definition send (c : call) : M json :=
  fun t log =>
    (log ++ [c],
     match t log c with
     | Failed msg => inl (RequestException msg)
     | Response body => inr body
     end).

(** [try: body  except <caught> as e: handler e]. *)
Definition try_except {A : Type} (body : M A) (caught : exn -> bool)
  (handler : exn -> M A) : M A :=
  fun t log =>
    match body t log with
    | (log', inl e) => if caught e then handler e t log' else (log', inl e)
    | r => r
    end.

Declare Scope py_scope.
Delimit Scope py_scope with py.
Notation "x <- m ;; k" := (bind m (fun x => k))
  (at level 61, m at next level, right associativity) : py_scope.
Notation "m ;;; k" := (bind m (fun _ => k))
  (at level 61, right associativity) : py_scope.

Definition run {A : Type} (m : M A) (t : transport) : list call * (exn + A) := m t [].
Definition outcome {A : Type} (m : M A) (t : transport) : exn + A := snd (run m t).
Definition calls {A : Type} (m : M A) (t : transport) : list call := fst (run m t).

(** ** Parameter and response models *)

Record ServerConfig : Type := { instance_url : string }.

Record AuthManager : Type := { get_headers : list (string * string) }.

Record ListCatalogItemsParams : Type := {
  limit : Z;
  offset : Z;
  category : option string;
  query : option string;
  active : bool;
}.

Record GetCatalogItemParams : Type := { gci_item_id : string }.

Record MoveCatalogItemsParams : Type := {
  item_ids : list string;
  target_category_id : string;
}.

Record SubmitCatalogRequestParams : Type := {
  item_id : string;
  variables : option dict;
}.

Record CatalogResponse : Type := mk_response {
  success : bool;
  message : string;
  data : option dict;
}.

(** Truthiness of an [Optional[str]] and of an [Optional[Dict]]. *)
Definition truthy_opt_str (o : option string) : bool :=
  match o with Some s => negb (String.eqb s "") | None => false end.

Definition truthy_opt_dict (o : option dict) : bool :=
  match o with Some (_ :: _) => true | _ => false end.

(** ** Field projection shared by the list and get operations

    Both operations build a dict literal whose entries are
    [item.get(key, "")], evaluated top to bottom.  [fields] pairs each
    projected name with the payload key it is read from. *)

Fixpoint project (item : json) (fields : list (string * string)) : exn + dict :=
  match fields with
  | [] => inr []
  | (name, key) :: rest =>
      match Py.get item key (JStr "") with
      | inl e => inl e
      | inr v =>
          match project item rest with
          | inl e => inl e
          | inr d => inr ((name, v) :: d)
          end
      end
  end.

Definition list_item_fields : list (string * string) :=
  [("sys_id", "sys_id"); ("name", "name");
   ("short_description", "short_description"); ("category", "category");
   ("price", "price"); ("picture", "picture"); ("active", "active");
   ("order", "order")].

Definition get_item_fields : list (string * string) :=
  [("sys_id", "sys_id"); ("name", "name");
   ("short_description", "short_description"); ("description", "description");
   ("category", "category"); ("price", "price"); ("picture", "picture");
   ("active", "active"); ("order", "order");
   ("delivery_time", "delivery_time"); ("availability", "availability");
   ("mandatory_attachment", "mandatory_attachment");
   ("variables", "variables"); ("ui_policies", "ui_policy");
   ("client_scripts", "client_script")].

(** [for item in items: formatted_items.append({...})]. *)
Fixpoint format_items (items : list json) : exn + list json :=
  match items with
  | [] => inr []
  | item :: rest =>
      match project item list_item_fields with
      | inl e => inl e
      | inr d =>
          match format_items rest with
          | inl e => inl e
          | inr ds => inr (JObj d :: ds)
          end
      end
  end.

Local Open Scope py_scope.

(** ** list_catalog_items (source lines 88-173) *)

(** Lines 110-127: the query parameters, with the filters joined by [^]. *)
Definition list_query_params (params : ListCatalogItemsParams) : dict :=
  let query_params : dict :=
    [("sysparm_limit", JNum (limit params));
     ("sysparm_offset", JNum (offset params));
     ("sysparm_display_value", JStr "true");
     ("sysparm_exclude_reference_link", JStr "true")] in
  let filters : list string := [] in
  let filters := if active params then filters ++ ["active=true"] else filters in
  let filters :=
    match category params with
    | Some c => if truthy_opt_str (Some c)
                then filters ++ [Py.fstr ["category="; c]] else filters
    | None => filters
    end in
  let filters :=
    match query params with
    | Some q => if truthy_opt_str (Some q)
                then filters ++ [Py.fstr ["short_descriptionLIKE"; q; "^ORnameLIKE"; q]]
                else filters
    | None => filters
    end in
  match filters with
  | [] => query_params
  | _ => Py.dict_set query_params "sysparm_query" (JStr (String.concat "^" filters))
  end.

Definition list_catalog_items (config : ServerConfig) (auth_manager : AuthManager)
  (params : ListCatalogItemsParams) : M dict :=
  let url := Py.fstr [instance_url config; "/api/now/table/sc_cat_item"] in
  let query_params := list_query_params params in
  let headers := get_headers auth_manager in
  let headers := Py.dict_set headers "Accept" "application/json" in
  try_except
    (result <- send (mk_call GET url headers (Some query_params) None) ;;
     items <- lift (Py.get result "result" (JList [])) ;;
     items <- lift (Py.iter items) ;;
     formatted_items <- lift (format_items items) ;;
     ret [("success", JBool true);
          ("message", JStr (Py.fstr ["Retrieved ";
                                     Py.str_of_int (Py.len formatted_items);
                                     " catalog items"]));
          ("items", JList formatted_items);
          ("total", JNum (Py.len formatted_items));
          ("limit", JNum (limit params));
          ("offset", JNum (offset params))])
    is_request_exception
    (fun e =>
       ret [("success", JBool false);
            ("message", JStr (Py.fstr ["Error listing catalog items: "; exn_str e]));
            ("items", JList []);
            ("total", JNum 0);
            ("limit", JNum (limit params));
            ("offset", JNum (offset params))]).

(** ** get_catalog_item (source lines 176-253) *)

Definition get_catalog_item (config : ServerConfig) (auth_manager : AuthManager)
  (params : GetCatalogItemParams) : M CatalogResponse :=
  let url := Py.fstr [instance_url config; "/api/sn_sc/servicecatalog/items/";
                      gci_item_id params] in
  let query_params : dict :=
    [("sysparm_display_value", JStr "true");
     ("sysparm_exclude_reference_link", JStr "true")] in
  let headers := get_headers auth_manager in
  let headers := Py.dict_set headers "Accept" "application/json" in
  try_except
    (result <- send (mk_call GET url headers (Some query_params) None) ;;
     item <- lift (Py.get result "result" (JObj [])) ;;
     if negb (Py.truthy item) then
       ret (mk_response false
              (Py.fstr ["Catalog item not found: "; gci_item_id params])
              None)
     else
       formatted_item <- lift (project item get_item_fields) ;;
       name <- lift (Py.get item "name" (JStr "")) ;;
       ret (mk_response true
              (Py.fstr ["Retrieved catalog item: "; Py.str name])
              (Some formatted_item)))
    is_request_exception
    (fun e =>
       ret (mk_response false
              (Py.fstr ["Error getting catalog item: "; exn_str e])
              None)).

(** ** move_catalog_items (source lines 493-566) *)

Definition failed_entry (item_id err : string) : json :=
  JObj [("item_id", JStr item_id); ("error", JStr err)].

(** The [for] loop of lines 523-535, carrying [success_count] and
    [failed_items]. *)
Fixpoint move_loop (url target : string) (headers : list (string * string))
  (ids : list string) (success_count : Z) (failed_items : list json)
  : M (Z * list json) :=
  match ids with
  | [] => ret (success_count, failed_items)
  | item_id :: rest =>
      let item_url := Py.fstr [url; "/"; item_id] in
      let body := JObj [("category", JStr target)] in
      st <- try_except
              (send (mk_call PATCH item_url headers None (Some body)) ;;;
               ret (success_count + 1, failed_items)%Z)
              is_request_exception
              (fun e => ret (success_count,
                             failed_items ++ [failed_entry item_id (exn_str e)])) ;;
      move_loop url target headers rest (fst st) (snd st)
  end.

Definition move_catalog_items (config : ServerConfig) (auth_manager : AuthManager)
  (params : MoveCatalogItemsParams) : M CatalogResponse :=
  let url := Py.fstr [instance_url config; "/api/now/table/sc_cat_item"] in
  let headers := get_headers auth_manager in
  let headers := Py.dict_set headers "Accept" "application/json" in
  let headers := Py.dict_set headers "Content-Type" "application/json" in
  try_except
    (st <- move_loop url (target_category_id params) headers (item_ids params) 0 [] ;;
     let success_count := fst st in
     let failed_items := snd st in
     if Z.eqb success_count (Py.len (item_ids params)) then
       ret (mk_response true
              (Py.fstr ["Successfully moved "; Py.str_of_int success_count;
                        " catalog items to category "; target_category_id params])
              (Some [("moved_items_count", JNum success_count)]))
     else if Z.ltb 0 success_count then
       ret (mk_response true
              (Py.fstr ["Partially moved catalog items. ";
                        Py.str_of_int success_count; " succeeded, ";
                        Py.str_of_int (Py.len failed_items); " failed."])
              (Some [("moved_items_count", JNum success_count);
                     ("failed_items", JList failed_items)]))
     else
       ret (mk_response false "Failed to move any catalog items"
              (Some [("failed_items", JList failed_items)])))
    (fun _ => true)
    (fun e =>
       ret (mk_response false
              (Py.fstr ["Error moving catalog items: "; exn_str e])
              None)).

(** ** submit_catalog_request (source lines 568-649) *)

Definition submit_url (config : ServerConfig) (params : SubmitCatalogRequestParams)
  (item_type : string) : string :=
  if String.eqb item_type "producer" then
    Py.fstr [instance_url config; "/api/sn_sc/servicecatalog/items/";
             item_id params; "/submit_producer"]
  else
    Py.fstr [instance_url config; "/api/sn_sc/servicecatalog/items/";
             item_id params; "/order_now"].

Definition submit_body (params : SubmitCatalogRequestParams) : dict :=
  let body : dict := [] in
  if truthy_opt_dict (variables params) then
    match variables params with
    | Some vars => Py.dict_set body "variables" (JObj vars)
    | None => body
    end
  else body.

Definition ritm_query_url (config : ServerConfig) (req_id : json) : string :=
  Py.fstr [instance_url config; "/api/now/table/sc_req_item";
           "?sysparm_query=request="; Py.str req_id; "&sysparm_fields=sys_id,number";
           "&sysparm_limit=1&sysparm_display_value=true"].

Definition submit_headers (auth_manager : AuthManager) : list (string * string) :=
  let headers := get_headers auth_manager in
  let headers := Py.dict_set headers "Accept" "application/json" in
  Py.dict_set headers "Content-Type" "application/json".

Definition submit_catalog_request (config : ServerConfig) (auth_manager : AuthManager)
  (params : SubmitCatalogRequestParams) (item_type : string) : M CatalogResponse :=
  let url := submit_url config params item_type in
  let body := submit_body params in
  let headers := submit_headers auth_manager in
  try_except
    (resp <- send (mk_call POST url headers None (Some (JObj body))) ;;
     result <- lift (Py.get resp "result" (JObj [])) ;;
     table <- lift (Py.get result "table" JNull) ;;
     created_table <-
       (if Py.truthy table then ret table
        else lift (Py.get result "record" JNull)) ;;
     ids <-
       (if Py.eq_str created_table "sc_request" then
          sys_id <- lift (Py.get result "sys_id" JNull) ;;
          req_id <-
            (if Py.truthy sys_id then ret sys_id
             else lift (Py.get result "request_id" JNull)) ;;
          if negb (Py.truthy req_id) then
            raise (RuntimeError "Cannot locate sys_id for created record")
          else
            ritm_resp <- send (mk_call GET (ritm_query_url config req_id)
                                 headers None None) ;;
            ritm_list <- lift (Py.get ritm_resp "result" (JList [])) ;;
            if Py.truthy ritm_list then
              first <- lift (Py.index0 ritm_list) ;;
              record_id <- lift (Py.get first "sys_id" JNull) ;;
              first <- lift (Py.index0 ritm_list) ;;
              record_number <- lift (Py.get first "number" JNull) ;;
              ret (record_id, record_number)
            else
              request_number <- lift (Py.get result "request_number" JNull) ;;
              record_number <-
                (if Py.truthy request_number then ret request_number
                 else lift (Py.get result "number" JNull)) ;;
              ret (req_id, record_number)
        else
          record_id <- lift (Py.get result "sys_id" JNull) ;;
          number <- lift (Py.get result "number" JNull) ;;
          record_number <-
            (if Py.truthy number then ret number
             else lift (Py.get result "request_number" JNull)) ;;
          ret (record_id, record_number)) ;;
     let record_id := fst ids in
     let record_number := snd ids in
     let formatted : dict :=
       [("record_id", record_id); ("record_number", record_number)] in
     ret (mk_response true
            (Py.fstr ["Submitted catalog request; created record ";
                      Py.str (Py.or_ record_number record_id)])
            (Some formatted)))
    is_request_exception
    (fun e =>
       ret (mk_response false
              (Py.fstr ["Error submitting catalog request: "; exn_str e])
              None)).

(** ** Vocabulary for the statements *)

(** [d.get(k)] on a dict: the bound value, [None] when the key is missing. *)
Definition field (d : dict) (k : string) : json :=
  match Py.dict_get d k with Some v => v | None => JNull end.

(** Line 605: the discriminant, [result.get("table") or result.get("record")]. *)
Definition created_table (result : dict) : json :=
  Py.or_ (field result "table") (field result "record").

(** Line 609: the parent identifier, [sys_id] first, then [request_id]. *)
Definition parent_id (result : dict) : json :=
  Py.or_ (field result "sys_id") (field result "request_id").

(** The two calls [submit_catalog_request] can issue. *)
Definition post_call (config : ServerConfig) (auth_manager : AuthManager)
  (params : SubmitCatalogRequestParams) (item_type : string) : call :=
  mk_call POST (submit_url config params item_type) (submit_headers auth_manager)
    None (Some (JObj (submit_body params))).

Definition ritm_call (config : ServerConfig) (auth_manager : AuthManager)
  (req_id : json) : call :=
  mk_call GET (ritm_query_url config req_id) (submit_headers auth_manager) None None.

(** The outcome of a resolved submission. *)
Definition submitted (record_id record_number : json) : CatalogResponse :=
  mk_response true
    (Py.fstr ["Submitted catalog request; created record ";
              Py.str (Py.or_ record_number record_id)])
    (Some [("record_id", record_id); ("record_number", record_number)]).

Definition submit_error (e : exn) : CatalogResponse :=
  mk_response false
    (Py.fstr ["Error submitting catalog request: "; exn_str e]) None.

(** Lines 643-649: a [RequestException] becomes a failed outcome, any
    other exception leaves the function. *)
Definition leave (log : list call) (e : exn) : list call * (exn + CatalogResponse) :=
  if is_request_exception e then (log, inr (submit_error e)) else (log, inl e).

(** A SubmissionResult whose two fields are both null or both populated. *)
Definition paired (d : dict) : Prop :=
  field d "record_id" = JNull <-> field d "record_number" = JNull.

(** The pairing invariant read on the outcome of an operation. *)
Definition result_paired (out : exn + CatalogResponse) : Prop :=
  forall r d, out = inr r -> data r = Some d -> paired d.

(** An action only ever appends to the call log. *)
Definition extends {A : Type} (m : M A) : Prop :=
  forall t log, exists more, fst (m t log) = log ++ more.


(** The record a SubmissionResult is read from, with the identifier and
    the number it contributes: the first row of a non-empty lookup (lines
    620-622), the parent request when the lookup is empty (lines 623-626),
    or the answer itself when it is not a request (lines 627-630). *)
Inductive resolved (config : ServerConfig) (auth_manager : AuthManager)
  (params : SubmitCatalogRequestParams) (item_type : string) (t : transport)
  : json -> json -> Prop :=
| from_row resp result ritm_resp row more :
    t [] (post_call config auth_manager params item_type) = Response resp ->
    Py.get resp "result" (JObj []) = inr (JObj result) ->
    Py.eq_str (created_table result) "sc_request" = true ->
    Py.truthy (parent_id result) = true ->
    t [post_call config auth_manager params item_type]
      (ritm_call config auth_manager (parent_id result)) = Response ritm_resp ->
    Py.get ritm_resp "result" (JList []) = inr (JList (JObj row :: more)) ->
    resolved config auth_manager params item_type t
      (field row "sys_id") (field row "number")
| from_parent resp result ritm_resp ritm_list :
    t [] (post_call config auth_manager params item_type) = Response resp ->
    Py.get resp "result" (JObj []) = inr (JObj result) ->
    Py.eq_str (created_table result) "sc_request" = true ->
    Py.truthy (parent_id result) = true ->
    t [post_call config auth_manager params item_type]
      (ritm_call config auth_manager (parent_id result)) = Response ritm_resp ->
    Py.get ritm_resp "result" (JList []) = inr ritm_list ->
    Py.truthy ritm_list = false ->
    resolved config auth_manager params item_type t
      (parent_id result)
      (Py.or_ (field result "request_number") (field result "number"))
| from_direct resp result :
    t [] (post_call config auth_manager params item_type) = Response resp ->
    Py.get resp "result" (JObj []) = inr (JObj result) ->
    Py.eq_str (created_table result) "sc_request" = false ->
    resolved config auth_manager params item_type t
      (field result "sys_id")
      (Py.or_ (field result "number") (field result "request_number")).

(** The order-now endpoint of an item. *)
Definition order_now_url (config : ServerConfig) (params : SubmitCatalogRequestParams)
  : string :=
  Py.fstr [instance_url config; "/api/sn_sc/servicecatalog/items/";
           item_id params; "/order_now"].

(** The single call of [get_catalog_item] and of [list_catalog_items]. *)
Definition get_item_call (config : ServerConfig) (auth_manager : AuthManager)
  (params : GetCatalogItemParams) : call :=
  mk_call GET
    (Py.fstr [instance_url config; "/api/sn_sc/servicecatalog/items/";
              gci_item_id params])
    (Py.dict_set (get_headers auth_manager) "Accept" "application/json")
    (Some [("sysparm_display_value", JStr "true");
           ("sysparm_exclude_reference_link", JStr "true")])
    None.

Definition list_items_call (config : ServerConfig) (auth_manager : AuthManager)
  (params : ListCatalogItemsParams) : call :=
  mk_call GET
    (Py.fstr [instance_url config; "/api/now/table/sc_cat_item"])
    (Py.dict_set (get_headers auth_manager) "Accept" "application/json")
    (Some (list_query_params params))
    None.

(** The projection as a table: each projected name bound to the payload's
    value under its key, or to the empty string when the key is missing. *)
Definition projection (item : dict) (fields : list (string * string)) : dict :=
  map (fun nk => (fst nk,
                  match Py.dict_get item (snd nk) with
                  | Some v => v
                  | None => JStr ""
                  end)) fields.

(** No field of the data of an outcome is null. *)
Definition projected_never_null (out : exn + CatalogResponse) : Prop :=
  forall r d k, out = inr r -> data r = Some d -> Py.dict_get d k <> Some JNull.

(** A field of the data of a response. *)
Definition data_field (r : CatalogResponse) (k : string) : option json :=
  match data r with Some d => Py.dict_get d k | None => None end.

(** The calls and bookkeeping of [move_catalog_items]. *)
Definition move_url (config : ServerConfig) : string :=
  Py.fstr [instance_url config; "/api/now/table/sc_cat_item"].

Definition move_headers (auth_manager : AuthManager) : list (string * string) :=
  Py.dict_set (Py.dict_set (get_headers auth_manager) "Accept" "application/json")
    "Content-Type" "application/json".

Definition patch_call (url target : string) (headers : list (string * string))
  (item_id : string) : call :=
  mk_call PATCH (Py.fstr [url; "/"; item_id]) headers None
    (Some (JObj [("category", JStr target)])).

(** The answer each item id receives, in order, when the ids are patched
    one after the other starting from the log [log]. *)
Fixpoint replies_from (t : transport) (log : list call) (url target : string)
  (headers : list (string * string)) (ids : list string) : list (string * reply) :=
  match ids with
  | [] => []
  | item_id :: rest =>
      let c := patch_call url target headers item_id in
      (item_id, t log c) :: replies_from t (log ++ [c]) url target headers rest
  end.

(** The failing ids with their error text, and the number of successes. *)
Fixpoint failures (rs : list (string * reply)) : list json :=
  match rs with
  | [] => []
  | (item_id, Failed msg) :: rest => failed_entry item_id msg :: failures rest
  | (_, Response _) :: rest => failures rest
  end.

Fixpoint moved (rs : list (string * reply)) : Z :=
  match rs with
  | [] => 0
  | (_, Failed _) :: rest => moved rest
  | (_, Response _) :: rest => 1 + moved rest
  end.

Definition move_replies (config : ServerConfig) (auth_manager : AuthManager)
  (params : MoveCatalogItemsParams) (t : transport) : list (string * reply) :=
  replies_from t [] (move_url config) (target_category_id params)
    (move_headers auth_manager) (item_ids params).

(** C6 as the specification words it: with [N] ids of which [k] fail,
    [k < N] gives success with the count and (for [k > 0]) the failure
    list, and [k = N] gives failure. *)
Definition move_claim (config : ServerConfig) (auth_manager : AuthManager)
  (params : MoveCatalogItemsParams) (t : transport) : Prop :=
  let rs := move_replies config auth_manager params t in
  let N := Py.len (item_ids params) in
  let k := Py.len (failures rs) in
  exists r,
    outcome (move_catalog_items config auth_manager params) t = inr r
    /\ ((k < N)%Z ->
        success r = true
        /\ data_field r "moved_items_count" = Some (JNum (N - k))
        /\ ((0 < k)%Z -> data_field r "failed_items" = Some (JList (failures rs))))
    /\ (k = N -> success r = false).

(** ** Concrete worlds used to exercise the statements *)

Module Ex.

Definition config : ServerConfig := {| instance_url := "https://dev.example.com" |}.

Definition auth : AuthManager :=
  {| get_headers := [("Authorization", "Bearer token")] |}.

Definition item : SubmitCatalogRequestParams :=
  {| item_id := "ITM001"; variables := None |}.

Definition item_with_answers : SubmitCatalogRequestParams :=
  {| item_id := "ITM001"; variables := Some [("urgency", JStr "high")] |}.

Definition producer : SubmitCatalogRequestParams :=
  {| item_id := "PRD1"; variables := None |}.

(** A remote side that answers every POST with [submission] and every
    GET with [lookup_answer]. *)
Definition remote (submission lookup_answer : json) : transport :=
  fun _ c =>
    match c_method c with
    | POST => Response submission
    | GET => Response lookup_answer
    | PATCH => Failed "405 Client Error: Method Not Allowed"
    end.

Definition wrap (result : json) : json := JObj [("result", result)].

Definition request_REQ1 : dict :=
  [("table", JStr "sc_request"); ("sys_id", JStr "REQ1");
   ("request_number", JStr "REQ0001")].

Definition row_RITM9 : dict :=
  [("sys_id", JStr "RITM9"); ("number", JStr "RITM0009")].

Definition incident_INC1 : dict :=
  [("record", JStr "incident"); ("sys_id", JStr "INC1");
   ("number", JStr "INC0001")].

(** A parent request was created and one request item sits under it. *)
Definition request_with_item : transport :=
  remote (wrap (JObj request_REQ1)) (wrap (JList [JObj row_RITM9])).

(** A parent request was created, the lookup finds nothing. *)
Definition request_without_item : transport :=
  remote (wrap (JObj request_REQ1)) (wrap (JList [])).

(** A producer created an incident directly. *)
Definition incident_created : transport :=
  remote (wrap (JObj incident_INC1)) (wrap (JList [])).

(** A request marker with neither [sys_id] nor [request_id]. *)
Definition request_without_id : transport :=
  remote (wrap (JObj [("table", JStr "sc_request")])) (wrap (JList [])).

(** A direct record that carries an identifier and no number at all. *)
Definition unnumbered_record : transport :=
  remote (wrap (JObj [("record", JStr "incident"); ("sys_id", JStr "INC1")]))
         (wrap (JList [])).

(** A catalog item whose [name] is an explicit JSON null. *)
Definition get_item : GetCatalogItemParams := {| gci_item_id := "ITM001" |}.

Definition item_with_null_name : transport :=
  remote (wrap (JObj [])) (wrap (JObj [("sys_id", JStr "ITM001"); ("name", JNull)])).

Definition item_missing : transport := remote (wrap (JObj [])) (wrap (JObj [])).

Definition first_page : ListCatalogItemsParams :=
  {| limit := 10; offset := 0; category := Some "hardware"; query := None;
     active := true |}.

Definition two_items : transport :=
  remote (wrap (JObj []))
         (wrap (JList [JObj [("sys_id", JStr "A1"); ("name", JStr "Laptop")];
                       JObj [("name", JNull); ("extra", JNum 7)]])).

(** Moves: the second PATCH fails, the others succeed. *)
Definition second_fails : transport :=
  fun log _ =>
    if Nat.eqb (length log) 1 then Failed "404 Client Error: Not Found"
    else Response (wrap (JObj [])).

Definition all_fail : transport := fun _ _ => Failed "503 Server Error".

Definition move_three : MoveCatalogItemsParams :=
  {| item_ids := ["a"; "b"; "c"]; target_category_id := "CAT1" |}.

Definition move_none : MoveCatalogItemsParams :=
  {| item_ids := []; target_category_id := "CAT1" |}.

End Ex.

(** ** The category operations

    The three pydantic models share field names with each other and with
    [ListCatalogItemsParams]; each record lives in a module of its own so
    that the fields keep the names the source gives them. *)

Module ListCategories.
Record Params : Type := {
  limit : Z;
  offset : Z;
  query : option string;
  active : bool;
}.
End ListCategories.

Module CreateCategory.
Record Params : Type := {
  title : string;
  description : option string;
  parent : option string;
  icon : option string;
  active : bool;
  order : option Z;
}.
End CreateCategory.

Module UpdateCategory.
Record Params : Type := {
  category_id : string;
  title : option string;
  description : option string;
  parent : option string;
  icon : option string;
  active : option bool;
  order : option Z;
}.
End UpdateCategory.

(** [str(b).lower()] for a bool. *)
Definition str_lower_bool (b : bool) : string := if b then "true" else "false".

(** The seven fields every category is projected to. *)
Definition category_fields : list (string * string) :=
  [("sys_id", "sys_id"); ("title", "title"); ("description", "description");
   ("parent", "parent"); ("icon", "icon"); ("active", "active");
   ("order", "order")].

(** [for category in categories: formatted_categories.append({...})]. *)
Fixpoint format_categories (categories : list json) : exn + list json :=
  match categories with
  | [] => inr []
  | category :: rest =>
      match project category category_fields with
      | inl e => inl e
      | inr d =>
          match format_categories rest with
          | inl e => inl e
          | inr ds => inr (JObj d :: ds)
          end
      end
  end.

(** [if value is not None: body[key] = text(value)]. *)
Definition set_if_given {V : Type} (body : dict) (key : string) (value : option V)
  (text : V -> string) : dict :=
  match value with
  | Some v => Py.dict_set body key (JStr (text v))
  | None => body
  end.

(** ** list_catalog_categories (source lines 257-339) *)

Definition categories_query_params (params : ListCategories.Params) : dict :=
  let query_params : dict :=
    [("sysparm_limit", JNum (ListCategories.limit params));
     ("sysparm_offset", JNum (ListCategories.offset params));
     ("sysparm_display_value", JStr "true");
     ("sysparm_exclude_reference_link", JStr "true")] in
  let filters : list string := [] in
  let filters :=
    if ListCategories.active params then filters ++ ["active=true"] else filters in
  let filters :=
    match ListCategories.query params with
    | Some q => if truthy_opt_str (Some q)
                then filters ++ [Py.fstr ["titleLIKE"; q; "^ORdescriptionLIKE"; q]]
                else filters
    | None => filters
    end in
  match filters with
  | [] => query_params
  | _ => Py.dict_set query_params "sysparm_query" (JStr (String.concat "^" filters))
  end.

Definition list_catalog_categories (config : ServerConfig)
  (auth_manager : AuthManager) (params : ListCategories.Params) : M dict :=
  let url := Py.fstr [instance_url config; "/api/now/table/sc_category"] in
  let query_params := categories_query_params params in
  let headers := get_headers auth_manager in
  let headers := Py.dict_set headers "Accept" "application/json" in
  try_except
    (result <- send (mk_call GET url headers (Some query_params) None) ;;
     categories <- lift (Py.get result "result" (JList [])) ;;
     categories <- lift (Py.iter categories) ;;
     formatted_categories <- lift (format_categories categories) ;;
     ret [("success", JBool true);
          ("message", JStr (Py.fstr ["Retrieved ";
                                     Py.str_of_int (Py.len formatted_categories);
                                     " catalog categories"]));
          ("categories", JList formatted_categories);
          ("total", JNum (Py.len formatted_categories));
          ("limit", JNum (ListCategories.limit params));
          ("offset", JNum (ListCategories.offset params))])
    is_request_exception
    (fun e =>
       ret [("success", JBool false);
            ("message", JStr (Py.fstr ["Error listing catalog categories: ";
                                       exn_str e]));
            ("categories", JList []);
            ("total", JNum 0);
            ("limit", JNum (ListCategories.limit params));
            ("offset", JNum (ListCategories.offset params))]).

(** ** create_catalog_category (source lines 342-415) *)

Definition create_body (params : CreateCategory.Params) : dict :=
  let body : dict := [("title", JStr (CreateCategory.title params))] in
  let body := set_if_given body "description" (CreateCategory.description params)
                (fun s => s) in
  let body := set_if_given body "parent" (CreateCategory.parent params)
                (fun s => s) in
  let body := set_if_given body "icon" (CreateCategory.icon params) (fun s => s) in
  let body := set_if_given body "active" (Some (CreateCategory.active params))
                str_lower_bool in
  set_if_given body "order" (CreateCategory.order params) Py.str_of_int.

Definition create_catalog_category (config : ServerConfig)
  (auth_manager : AuthManager) (params : CreateCategory.Params)
  : M CatalogResponse :=
  let url := Py.fstr [instance_url config; "/api/now/table/sc_category"] in
  let body := create_body params in
  let headers := get_headers auth_manager in
  let headers := Py.dict_set headers "Accept" "application/json" in
  let headers := Py.dict_set headers "Content-Type" "application/json" in
  try_except
    (result <- send (mk_call POST url headers None (Some (JObj body))) ;;
     category <- lift (Py.get result "result" (JObj [])) ;;
     formatted_category <- lift (project category category_fields) ;;
     ret (mk_response true
            (Py.fstr ["Created catalog category: "; CreateCategory.title params])
            (Some formatted_category)))
    is_request_exception
    (fun e =>
       ret (mk_response false
              (Py.fstr ["Error creating catalog category: "; exn_str e])
              None)).

(** ** update_catalog_category (source lines 418-490) *)

Definition update_body (params : UpdateCategory.Params) : dict :=
  let body : dict := [] in
  let body := set_if_given body "title" (UpdateCategory.title params) (fun s => s) in
  let body := set_if_given body "description" (UpdateCategory.description params)
                (fun s => s) in
  let body := set_if_given body "parent" (UpdateCategory.parent params)
                (fun s => s) in
  let body := set_if_given body "icon" (UpdateCategory.icon params) (fun s => s) in
  let body := set_if_given body "active" (UpdateCategory.active params)
                str_lower_bool in
  set_if_given body "order" (UpdateCategory.order params) Py.str_of_int.

Definition update_catalog_category (config : ServerConfig)
  (auth_manager : AuthManager) (params : UpdateCategory.Params)
  : M CatalogResponse :=
  let url := Py.fstr [instance_url config; "/api/now/table/sc_category/";
                      UpdateCategory.category_id params] in
  let body := update_body params in
  let headers := get_headers auth_manager in
  let headers := Py.dict_set headers "Accept" "application/json" in
  let headers := Py.dict_set headers "Content-Type" "application/json" in
  try_except
    (result <- send (mk_call PATCH url headers None (Some (JObj body))) ;;
     category <- lift (Py.get result "result" (JObj [])) ;;
     formatted_category <- lift (project category category_fields) ;;
     ret (mk_response true
            (Py.fstr ["Updated catalog category: ";
                      UpdateCategory.category_id params])
            (Some formatted_category)))
    is_request_exception
    (fun e =>
       ret (mk_response false
              (Py.fstr ["Error updating catalog category: "; exn_str e])
              None)).

(** ** Further vocabulary *)

(** Lookup in a header dict. *)
Fixpoint header_get (headers : list (string * string)) (k : string) : option string :=
  match headers with
  | [] => None
  | (k', v) :: rest => if String.eqb k' k then Some v else header_get rest k
  end.

(** The headers of the read operations and of the write operations. *)
Definition read_headers (auth_manager : AuthManager) : list (string * string) :=
  Py.dict_set (get_headers auth_manager) "Accept" "application/json".

Definition write_headers (auth_manager : AuthManager) : list (string * string) :=
  Py.dict_set (read_headers auth_manager) "Content-Type" "application/json".

(** What a call's headers owe to the operation that sends it: [Accept]
    (and, for a write, [Content-Type]) is [application/json], and every
    other name is bound as the authentication provider bound it. *)
Definition accepts_json (auth_manager : AuthManager) (c : call) : Prop :=
  header_get (c_headers c) "Accept" = Some "application/json"
  /\ forall k, k <> "Accept" ->
       header_get (c_headers c) k = header_get (get_headers auth_manager) k.

Definition sends_json (auth_manager : AuthManager) (c : call) : Prop :=
  header_get (c_headers c) "Accept" = Some "application/json"
  /\ header_get (c_headers c) "Content-Type" = Some "application/json"
  /\ forall k, k <> "Accept" -> k <> "Content-Type" ->
       header_get (c_headers c) k = header_get (get_headers auth_manager) k.

(** The producer endpoint of an item. *)
Definition submit_producer_url (config : ServerConfig)
  (params : SubmitCatalogRequestParams) : string :=
  Py.fstr [instance_url config; "/api/sn_sc/servicecatalog/items/";
           item_id params; "/submit_producer"].

(** The single call of each category operation. *)
Definition categories_call (config : ServerConfig) (auth_manager : AuthManager)
  (params : ListCategories.Params) : call :=
  mk_call GET (Py.fstr [instance_url config; "/api/now/table/sc_category"])
    (read_headers auth_manager) (Some (categories_query_params params)) None.

Definition create_call (config : ServerConfig) (auth_manager : AuthManager)
  (params : CreateCategory.Params) : call :=
  mk_call POST (Py.fstr [instance_url config; "/api/now/table/sc_category"])
    (write_headers auth_manager) None (Some (JObj (create_body params))).

Definition update_call (config : ServerConfig) (auth_manager : AuthManager)
  (params : UpdateCategory.Params) : call :=
  mk_call PATCH
    (Py.fstr [instance_url config; "/api/now/table/sc_category/";
              UpdateCategory.category_id params])
    (write_headers auth_manager) None (Some (JObj (update_body params))).

(** An action that appends at most [n] calls to the log, each of them
    satisfying [P]. *)
Definition sends_within {A : Type} (P : call -> Prop) (n : nat) (m : M A) : Prop :=
  forall t log,
    exists more, fst (m t log) = log ++ more /\ length more <= n /\ Forall P more.

(** An exception that is not a transport failure. *)
Definition escapes (e : exn) : Prop := is_request_exception e = false.

(** Every value the action can return satisfies [Q]. *)
Definition yields {A : Type} (Q : A -> Prop) (m : M A) : Prop :=
  forall t log a, snd (m t log) = inr a -> Q a.

(** The action never raises. *)
Definition never_raises {A : Type} (m : M A) : Prop :=
  forall t log, exists a, snd (m t log) = inr a.

(** An outcome is either a failure without data or a success with data. *)
Definition well_formed (r : CatalogResponse) : Prop :=
  (success r = false /\ data r = None)
  \/ (success r = true /\ exists d, data r = Some d).

(** The keys of a dict, in order. *)
Definition keys (d : dict) : list string := map fst d.

(** The text an optional value contributes to a request body. *)
Definition given {V : Type} (value : option V) (text : V -> string) : option json :=
  match value with Some v => Some (JStr (text v)) | None => None end.

(** A value that has no [get] method although it is truthy, and a value
    that cannot be iterated. *)
Definition not_an_object (v : json) : Prop :=
  match v with JObj _ => False | _ => True end.

Definition not_iterable (v : json) : Prop :=
  match v with JNull | JBool _ | JNum _ => True | _ => False end.

Module Ex2.

(** Any call is answered with one stored category. *)
Definition category_row : dict :=
  [("sys_id", JStr "CAT1"); ("title", JStr "Laptops"); ("active", JStr "true")].

Definition category_stored : transport :=
  fun _ _ => Response (Ex.wrap (JObj category_row)).

Definition categories_listed : transport :=
  fun _ _ => Response (Ex.wrap (JList [JObj category_row; JObj []])).

Definition acknowledged : transport :=
  fun _ _ => Response (JObj [("status", JStr "ok")]).

Definition rows_as_list : transport :=
  Ex.remote (Ex.wrap (JObj [])) (Ex.wrap (JList [JObj [("sys_id", JStr "A1")]])).

Definition null_result : transport :=
  Ex.remote (Ex.wrap (JObj [])) (Ex.wrap JNull).

Definition no_result : transport :=
  Ex.remote (Ex.wrap (JObj [])) (JObj [("status", JStr "ok")]).

Definition crowded_auth : AuthManager :=
  {| get_headers := [("Accept", "text/html"); ("Authorization", "Bearer token");
                     ("Content-Type", "text/plain")] |}.

Definition down : transport := fun _ _ => Failed "503 Server Error".

(** The submission is accepted, the lookup is refused. *)
Definition lookup_refused : transport :=
  fun _ c =>
    match c_method c with
    | POST => Response (Ex.wrap (JObj Ex.request_REQ1))
    | _ => Failed "403 Client Error: Forbidden"
    end.

(** [table] names an incident while [record] holds the request marker. *)
Definition conflicting_hints : dict :=
  [("table", JStr "incident"); ("record", JStr "sc_request");
   ("sys_id", JStr "INC7"); ("number", JStr "INC0007")].

Definition hinted_both : transport :=
  Ex.remote (Ex.wrap (JObj conflicting_hints)) (Ex.wrap (JList [])).

(** An answer without any [result]. *)
Definition bare_answer : transport :=
  Ex.remote (JObj [("status", JStr "ok")]) (Ex.wrap (JList [])).

Definition all_pages : ListCatalogItemsParams :=
  {| limit := 50; offset := 100; category := Some ""; query := None;
     active := false |}.

Definition new_category : CreateCategory.Params :=
  {| CreateCategory.title := "Hardware";
     CreateCategory.description := None;
     CreateCategory.parent := Some "ROOT";
     CreateCategory.icon := None;
     CreateCategory.active := false;
     CreateCategory.order := Some 20%Z |}.

Definition no_change : UpdateCategory.Params :=
  {| UpdateCategory.category_id := "CAT1";
     UpdateCategory.title := None;
     UpdateCategory.description := None;
     UpdateCategory.parent := None;
     UpdateCategory.icon := None;
     UpdateCategory.active := None;
     UpdateCategory.order := None |}.

Definition rename : UpdateCategory.Params :=
  {| UpdateCategory.category_id := "CAT1";
     UpdateCategory.title := Some "Laptops";
     UpdateCategory.description := None;
     UpdateCategory.parent := None;
     UpdateCategory.icon := None;
     UpdateCategory.active := Some true;
     UpdateCategory.order := None |}.

Definition categories_page : ListCategories.Params :=
  {| ListCategories.limit := 10; ListCategories.offset := 0;
     ListCategories.query := Some "lap"; ListCategories.active := true |}.

End Ex2.

(** ** The call log only grows *)

Lemma extends_ret {A : Type} (a : A) : extends (ret a).
Proof. intros t log. exists []. simpl. now rewrite app_nil_r. Qed.

Lemma extends_raise {A : Type} (e : exn) : extends (@raise A e).
Proof. intros t log. exists []. simpl. now rewrite app_nil_r. Qed.

Lemma extends_lift {A : Type} (r : exn + A) : extends (lift r).
Proof. intros t log. exists []. simpl. now rewrite app_nil_r. Qed.

Lemma extends_send (c : call) : extends (send c).
Proof. intros t log. now exists [c]. Qed.

Lemma extends_bind {A B : Type} (m : M A) (f : A -> M B) :
  extends m -> (forall a, extends (f a)) -> extends (bind m f).
Proof.
  intros Hm Hf t log. unfold bind.
  destruct (Hm t log) as [more Hmore].
  destruct (m t log) as [log' [e | a]]; simpl in *.
  - now exists more.
  - destruct (Hf a t log') as [more' Hmore']. subst log'.
    exists (more ++ more'). now rewrite Hmore', app_assoc.
Qed.

Lemma extends_try {A : Type} (m : M A) (caught : exn -> bool) (h : exn -> M A) :
  extends m -> (forall e, extends (h e)) -> extends (try_except m caught h).
Proof.
  intros Hm Hh t log. unfold try_except.
  destruct (Hm t log) as [more Hmore].
  destruct (m t log) as [log' [e | a]]; simpl in *.
  - destruct (caught e); simpl.
    + destruct (Hh e t log') as [more' Hmore']. subst log'.
      exists (more ++ more'). now rewrite Hmore', app_assoc.
    + now exists more.
  - now exists more.
Qed.

Lemma extends_if {A : Type} (b : bool) (m1 m2 : M A) :
  extends m1 -> extends m2 -> extends (if b then m1 else m2).
Proof. now destruct b. Qed.

Ltac grows := repeat (first [ apply extends_try | apply extends_bind
                            | apply extends_if | apply extends_ret
                            | apply extends_raise | apply extends_lift
                            | apply extends_send | intro ]).

(** Equations of [bind] on the primitive actions. *)
Lemma bind_send {A : Type} (c : call) (k : json -> M A) (t : transport) log :
  bind (send c) k t log =
  match t log c with
  | Failed msg => (log ++ [c], inl (RequestException msg))
  | Response body => k body t (log ++ [c])
  end.
Proof. unfold bind, send. now destruct (t log c). Qed.

Lemma bind_lift_inr {A B : Type} (a : A) (k : A -> M B) (t : transport) log :
  bind (lift (inr a)) k t log = k a t log.
Proof. reflexivity. Qed.

Lemma bind_lift_inl {A B : Type} (e : exn) (k : A -> M B) (t : transport) log :
  bind (@lift A (inl e)) k t log = (log, inl e).
Proof. reflexivity. Qed.

Lemma bind_ret {A B : Type} (a : A) (k : A -> M B) (t : transport) log :
  bind (ret a) k t log = k a t log.
Proof. reflexivity. Qed.

Lemma bind_bind {A B C : Type} (m : M A) (f : A -> M B) (g : B -> M C)
  (t : transport) log :
  bind (bind m f) g t log = bind m (fun a => bind (f a) g) t log.
Proof. unfold bind. now destruct (m t log) as [log' [e | a]]. Qed.

Lemma bind_raise {A B : Type} (e : exn) (k : A -> M B) (t : transport) log :
  bind (raise e) k t log = (log, inl e).
Proof. reflexivity. Qed.

Lemma get_dict (d : dict) (k : string) :
  Py.get (JObj d) k JNull = inr (field d k).
Proof. reflexivity. Qed.

(** After a submission answered with the object [result], what is left of
    [submit_catalog_request] is a function of [result] alone. *)
Lemma submit_after_post config auth_manager params item_type t resp :
  t [] (post_call config auth_manager params item_type) = Response resp ->
  run (submit_catalog_request config auth_manager params item_type) t =
  try_except
    (result <- lift (Py.get resp "result" (JObj [])) ;;
     table <- lift (Py.get result "table" JNull) ;;
     created_table <-
       (if Py.truthy table then ret table
        else lift (Py.get result "record" JNull)) ;;
     ids <-
       (if Py.eq_str created_table "sc_request" then
          sys_id <- lift (Py.get result "sys_id" JNull) ;;
          req_id <-
            (if Py.truthy sys_id then ret sys_id
             else lift (Py.get result "request_id" JNull)) ;;
          if negb (Py.truthy req_id) then
            raise (RuntimeError "Cannot locate sys_id for created record")
          else
            ritm_resp <- send (ritm_call config auth_manager req_id) ;;
            ritm_list <- lift (Py.get ritm_resp "result" (JList [])) ;;
            if Py.truthy ritm_list then
              first <- lift (Py.index0 ritm_list) ;;
              record_id <- lift (Py.get first "sys_id" JNull) ;;
              first <- lift (Py.index0 ritm_list) ;;
              record_number <- lift (Py.get first "number" JNull) ;;
              ret (record_id, record_number)
            else
              request_number <- lift (Py.get result "request_number" JNull) ;;
              record_number <-
                (if Py.truthy request_number then ret request_number
                 else lift (Py.get result "number" JNull)) ;;
              ret (req_id, record_number)
        else
          record_id <- lift (Py.get result "sys_id" JNull) ;;
          number <- lift (Py.get result "number" JNull) ;;
          record_number <-
            (if Py.truthy number then ret number
             else lift (Py.get result "request_number" JNull)) ;;
          ret (record_id, record_number)) ;;
     ret (submitted (fst ids) (snd ids)))
    is_request_exception
    (fun e =>
       ret (mk_response false
              (Py.fstr ["Error submitting catalog request: "; exn_str e])
              None))
    t [post_call config auth_manager params item_type].
Proof.
  intros Hpost.
  unfold run, submit_catalog_request, try_except.
  rewrite bind_send. fold (post_call config auth_manager params item_type).
  now rewrite Hpost.
Qed.

(** A guarded block that starts by sending [c] has [c] first in its log. *)
Lemma first_call {A : Type} (c : call) (k : json -> M A) (caught : exn -> bool)
  (h : exn -> M A) (t : transport) :
  (forall body, extends (k body)) -> (forall e, extends (h e)) ->
  exists more, fst (try_except (bind (send c) k) caught h t []) = c :: more.
Proof.
  intros Hk Hh.
  unfold try_except. rewrite bind_send. change ([] ++ [c]) with [c].
  destruct (t [] c) as [msg | body].
  - simpl. destruct (caught (RequestException msg)).
    + destruct (Hh (RequestException msg) t [c]) as [more' ->]. now exists more'.
    + now exists [].
  - destruct (Hk body t [c]) as [more' Hk'].
    destruct (k body t [c]) as [log' [e | a]]; simpl in *; subst log'.
    + destruct (caught e); [|now exists more'].
      destruct (Hh e t (c :: more')) as [more'' ->].
      now exists (more' ++ more'').
    + now exists more'.
Qed.

(** ** Submission resolver: one equation for all paths *)

Lemma or_get (a b : json) :
  (if Py.truthy a then ret a else lift (inr b)) = ret (Py.or_ a b).
Proof. unfold Py.or_. now destruct (Py.truthy a). Qed.

Section Submission.

Variables (config : ServerConfig) (auth_manager : AuthManager).
Variables (params : SubmitCatalogRequestParams) (item_type : string).
Variable t : transport.

Local Abbreviation post := (post_call config auth_manager params item_type).
Local Abbreviation submit :=
  (submit_catalog_request config auth_manager params item_type).
Local Abbreviation lookup := (ritm_call config auth_manager).

(** What the resolver does once the submission is answered with the
    object [result]: lines 601-641, with every branch spelled out. *)
Lemma submit_resolution resp result :
  t [] post = Response resp ->
  Py.get resp "result" (JObj []) = inr (JObj result) ->
  run submit t =
  if Py.eq_str (created_table result) "sc_request" then
    if Py.truthy (parent_id result) then
      let req_id := parent_id result in
      let log := [post; lookup req_id] in
      match t [post] (lookup req_id) with
      | Failed msg => leave log (RequestException msg)
      | Response ritm_resp =>
          match Py.get ritm_resp "result" (JList []) with
          | inl e => leave log e
          | inr ritm_list =>
              if Py.truthy ritm_list then
                match Py.index0 ritm_list with
                | inl e => leave log e
                | inr first =>
                    match Py.get first "sys_id" JNull with
                    | inl e => leave log e
                    | inr record_id =>
                        match Py.get first "number" JNull with
                        | inl e => leave log e
                        | inr record_number =>
                            (log, inr (submitted record_id record_number))
                        end
                    end
                end
              else
                (log,
                 inr (submitted req_id
                        (Py.or_ (field result "request_number")
                                (field result "number"))))
          end
      end
    else leave [post] (RuntimeError "Cannot locate sys_id for created record")
  else
    ([post],
     inr (submitted (field result "sys_id")
            (Py.or_ (field result "number") (field result "request_number")))).
Proof.
  intros Hpost Hres.
  rewrite (submit_after_post _ _ _ _ _ _ Hpost).
  unfold try_except. rewrite Hres, bind_lift_inr, !get_dict, bind_lift_inr.
  rewrite or_get, bind_ret. fold (created_table result).
  destruct (Py.eq_str (created_table result) "sc_request").
  - rewrite !bind_bind, bind_lift_inr, bind_bind, or_get, bind_ret.
    fold (parent_id result).
    destruct (Py.truthy (parent_id result)); simpl negb; cbv iota.
    2: { rewrite bind_raise. reflexivity. }
    rewrite !bind_bind, bind_send.
    destruct (t [post] (lookup (parent_id result))) as [msg | ritm_resp];
      [reflexivity|].
    rewrite ?bind_bind.
    destruct (Py.get ritm_resp "result" (JList [])) as [e | ritm_list];
      [now rewrite bind_lift_inl|].
    rewrite bind_lift_inr.
    destruct (Py.truthy ritm_list).
    + rewrite ?bind_bind.
      destruct (Py.index0 ritm_list) as [e | first];
        [now rewrite bind_lift_inl|].
      rewrite bind_lift_inr, ?bind_bind.
      destruct (Py.get first "sys_id" JNull) as [e | record_id];
        [now rewrite bind_lift_inl|].
      rewrite bind_lift_inr, ?bind_bind, bind_lift_inr, ?bind_bind.
      destruct (Py.get first "number" JNull) as [e | record_number];
        [now rewrite bind_lift_inl | reflexivity].
    + rewrite !bind_bind, bind_lift_inr, bind_bind, or_get, !bind_ret.
      reflexivity.
  - rewrite !bind_bind, bind_lift_inr, bind_bind, bind_lift_inr.
    rewrite bind_bind, or_get, !bind_ret. reflexivity.
Qed.

End Submission.

(** ** Submission resolver: the claims *)

Lemma not_marker_created_table (result : dict) :
  Py.eq_str (field result "table") "sc_request" = false ->
  Py.eq_str (field result "record") "sc_request" = false ->
  Py.eq_str (created_table result) "sc_request" = false.
Proof.
  intros Htable Hrecord. unfold created_table, Py.or_.
  now destruct (Py.truthy (field result "table")).
Qed.

Lemma or_truthy (a b : json) : Py.truthy a = true -> Py.or_ a b = a.
Proof. unfold Py.or_. now intros ->. Qed.

Lemma or_falsy (a b : json) : Py.truthy a = false -> Py.or_ a b = b.
Proof. unfold Py.or_. now intros ->. Qed.

Lemma field_missing (d : dict) (k : string) :
  Py.dict_get d k = None -> Py.truthy (field d k) = false.
Proof. unfold field. now intros ->. Qed.

Section SubmissionClaims.

Variables (config : ServerConfig) (auth_manager : AuthManager).
Variables (params : SubmitCatalogRequestParams) (item_type : string).
Variable t : transport.

Local Abbreviation post := (post_call config auth_manager params item_type).
Local Abbreviation submit :=
  (submit_catalog_request config auth_manager params item_type).
Local Abbreviation lookup := (ritm_call config auth_manager).

(** C5.  A submission answer in which neither [table] nor [record] holds
    the marker [sc_request] (both may be missing) is read as a direct
    record: [record_id] is the answer's own [sys_id], [record_number] is
    its [number], or its [request_number] when [number] is missing (or
    empty), and the submission is the only call issued. *)
Theorem direct_record_resolution resp result :
  t [] post = Response resp ->
  Py.get resp "result" (JObj []) = inr (JObj result) ->
  Py.eq_str (field result "table") "sc_request" = false ->
  Py.eq_str (field result "record") "sc_request" = false ->
  exists record_number,
    run submit t = ([post], inr (submitted (field result "sys_id") record_number))
    /\ (Py.truthy (field result "number") = true ->
        record_number = field result "number")
    /\ (Py.dict_get result "number" = None ->
        record_number = field result "request_number")
    /\ (Py.truthy (field result "number") = false ->
        record_number = field result "request_number").
Proof.
  intros Hpost Hres Htable Hrecord.
  exists (Py.or_ (field result "number") (field result "request_number")).
  rewrite (submit_resolution _ _ _ _ _ _ _ Hpost Hres).
  rewrite (not_marker_created_table _ Htable Hrecord).
  repeat split.
  - apply or_truthy.
  - intros Hmissing. now apply or_falsy, field_missing.
  - apply or_falsy.
Qed.

(** C4.  A submission answer marked [sc_request] with a usable parent
    identifier, whose request-item lookup comes back empty, resolves to
    the parent request itself: [record_id] is the parent identifier and
    [record_number] the parent's [request_number], or its [number] when
    [request_number] is missing (or empty). *)
Theorem request_without_item_resolution resp result ritm_resp ritm_list :
  t [] post = Response resp ->
  Py.get resp "result" (JObj []) = inr (JObj result) ->
  Py.eq_str (created_table result) "sc_request" = true ->
  Py.truthy (parent_id result) = true ->
  t [post] (lookup (parent_id result)) = Response ritm_resp ->
  Py.get ritm_resp "result" (JList []) = inr ritm_list ->
  Py.truthy ritm_list = false ->
  exists record_number,
    run submit t =
    ([post; lookup (parent_id result)],
     inr (submitted (parent_id result) record_number))
    /\ (Py.truthy (field result "request_number") = true ->
        record_number = field result "request_number")
    /\ (Py.dict_get result "request_number" = None ->
        record_number = field result "number")
    /\ (Py.truthy (field result "request_number") = false ->
        record_number = field result "number").
Proof.
  intros Hpost Hres Hmarker Hid Hlookup Hlist Hempty.
  exists (Py.or_ (field result "request_number") (field result "number")).
  rewrite (submit_resolution _ _ _ _ _ _ _ Hpost Hres).
  rewrite Hmarker, Hid. cbv zeta. rewrite Hlookup, Hlist, Hempty.
  repeat split.
  - apply or_truthy.
  - intros Hmissing. now apply or_falsy, field_missing.
  - apply or_falsy.
Qed.

(** C3.  A submission answer marked [sc_request] with a usable parent
    identifier, whose request-item lookup returns at least one row,
    resolves to the first row: [record_id] and [record_number] are that
    row's [sys_id] and [number], whatever the parent request carries. *)
Theorem request_item_resolution resp result ritm_resp row more :
  t [] post = Response resp ->
  Py.get resp "result" (JObj []) = inr (JObj result) ->
  Py.eq_str (created_table result) "sc_request" = true ->
  Py.truthy (parent_id result) = true ->
  t [post] (lookup (parent_id result)) = Response ritm_resp ->
  Py.get ritm_resp "result" (JList []) = inr (JList (JObj row :: more)) ->
  run submit t =
  ([post; lookup (parent_id result)],
   inr (submitted (field row "sys_id") (field row "number"))).
Proof.
  intros Hpost Hres Hmarker Hid Hlookup Hlist.
  rewrite (submit_resolution _ _ _ _ _ _ _ Hpost Hres).
  rewrite Hmarker, Hid. cbv zeta. now rewrite Hlookup, Hlist.
Qed.

(** C2, as the code behaves.  A submission answer marked [sc_request]
    whose [sys_id] and [request_id] are both missing (or empty) makes
    [submit_catalog_request] raise [RuntimeError] to its caller after the
    single submission call; no outcome is returned. *)
Theorem request_without_id_raises resp result :
  t [] post = Response resp ->
  Py.get resp "result" (JObj []) = inr (JObj result) ->
  Py.eq_str (created_table result) "sc_request" = true ->
  Py.truthy (parent_id result) = false ->
  run submit t =
  ([post], inl (RuntimeError "Cannot locate sys_id for created record")).
Proof.
  intros Hpost Hres Hmarker Hid.
  rewrite (submit_resolution _ _ _ _ _ _ _ Hpost Hres).
  now rewrite Hmarker, Hid.
Qed.

End SubmissionClaims.

Lemma direct_record_resolution_witness :
  exists record_number,
    run (submit_catalog_request Ex.config Ex.auth Ex.producer "producer")
        Ex.incident_created =
    ([post_call Ex.config Ex.auth Ex.producer "producer"],
     inr (submitted (JStr "INC1") record_number))
    /\ record_number = JStr "INC0001".
Proof.
  destruct (direct_record_resolution Ex.config Ex.auth Ex.producer "producer"
              Ex.incident_created (Ex.wrap (JObj Ex.incident_INC1)) Ex.incident_INC1
              eq_refl eq_refl eq_refl eq_refl) as (n & Hrun & Hnum & _).
  exists n. split; [exact Hrun | exact (Hnum eq_refl)].
Defined.

Lemma request_without_item_resolution_witness :
  exists record_number,
    run (submit_catalog_request Ex.config Ex.auth Ex.item "item")
        Ex.request_without_item =
    ([post_call Ex.config Ex.auth Ex.item "item";
      ritm_call Ex.config Ex.auth (JStr "REQ1")],
     inr (submitted (JStr "REQ1") record_number))
    /\ record_number = JStr "REQ0001".
Proof.
  destruct (request_without_item_resolution Ex.config Ex.auth Ex.item "item"
              Ex.request_without_item (Ex.wrap (JObj Ex.request_REQ1))
              Ex.request_REQ1 (Ex.wrap (JList [])) (JList [])
              eq_refl eq_refl eq_refl eq_refl eq_refl eq_refl eq_refl)
    as (n & Hrun & Hnum & _).
  exists n. split; [exact Hrun | exact (Hnum eq_refl)].
Defined.

Lemma request_item_resolution_witness :
  run (submit_catalog_request Ex.config Ex.auth Ex.item "item")
      Ex.request_with_item =
  ([post_call Ex.config Ex.auth Ex.item "item";
    ritm_call Ex.config Ex.auth (JStr "REQ1")],
   inr (submitted (JStr "RITM9") (JStr "RITM0009"))).
Proof.
  exact (request_item_resolution Ex.config Ex.auth Ex.item "item"
           Ex.request_with_item (Ex.wrap (JObj Ex.request_REQ1))
           Ex.request_REQ1 (Ex.wrap (JList [JObj Ex.row_RITM9])) Ex.row_RITM9 []
           eq_refl eq_refl eq_refl eq_refl eq_refl eq_refl).
Defined.

Lemma request_without_id_raises_witness :
  run (submit_catalog_request Ex.config Ex.auth Ex.item "item")
      Ex.request_without_id =
  ([post_call Ex.config Ex.auth Ex.item "item"],
   inl (RuntimeError "Cannot locate sys_id for created record")).
Proof.
  exact (request_without_id_raises Ex.config Ex.auth Ex.item "item"
           Ex.request_without_id (Ex.wrap (JObj [("table", JStr "sc_request")]))
           [("table", JStr "sc_request")] eq_refl eq_refl eq_refl eq_refl).
Defined.

(** ** Submission resolver: endpoint, body and pairing *)

Lemma submit_first_call config auth_manager params item_type t :
  exists more,
    calls (submit_catalog_request config auth_manager params item_type) t =
    post_call config auth_manager params item_type :: more.
Proof.
  unfold calls, run, submit_catalog_request, post_call.
  apply first_call; grows.
Qed.

(** C10.  Any [item_type] other than [producer] sends the submission to
    the order-now endpoint of the item, and the whole run is the one
    [item_type = "item"] gives: no value is rejected. *)
Theorem non_producer_routes_to_order_now config auth_manager params item_type t :
  item_type <> "producer" ->
  submit_url config params item_type = order_now_url config params
  /\ (exists more,
        calls (submit_catalog_request config auth_manager params item_type) t =
        mk_call POST (order_now_url config params) (submit_headers auth_manager)
          None (Some (JObj (submit_body params))) :: more)
  /\ run (submit_catalog_request config auth_manager params item_type) t =
     run (submit_catalog_request config auth_manager params "item") t.
Proof.
  intros Hother.
  assert (Hurl : submit_url config params item_type = order_now_url config params).
  { unfold submit_url. apply String.eqb_neq in Hother. now rewrite Hother. }
  split; [exact Hurl|]. split.
  - destruct (submit_first_call config auth_manager params item_type t)
      as [more Hmore].
    exists more. rewrite Hmore. unfold post_call. now rewrite Hurl.
  - unfold submit_catalog_request. now rewrite Hurl.
Qed.

Lemma non_producer_routes_to_order_now_witness :
  submit_url Ex.config Ex.item "bundle" =
  "https://dev.example.com/api/sn_sc/servicecatalog/items/ITM001/order_now"
  /\ run (submit_catalog_request Ex.config Ex.auth Ex.item "bundle")
         Ex.request_with_item =
     run (submit_catalog_request Ex.config Ex.auth Ex.item "item")
         Ex.request_with_item.
Proof.
  assert (Hother : "bundle" <> "producer") by discriminate.
  destruct (non_producer_routes_to_order_now Ex.config Ex.auth Ex.item "bundle"
              Ex.request_with_item Hother) as (Hurl & _ & Hrun).
  split; [exact Hurl | exact Hrun].
Defined.

(** C7.  The body of the submission holds the key [variables] exactly
    when the supplied mapping is neither [None] nor empty; it is then the
    mapping itself, and otherwise the body is the empty object.  That body
    is what the first call carries. *)
Theorem variables_key_iff_supplied config auth_manager params item_type t :
  (In "variables" (map fst (submit_body params)) <->
   exists vars, variables params = Some vars /\ vars <> [])
  /\ (forall vars, variables params = Some vars -> vars <> [] ->
      submit_body params = [("variables", JObj vars)])
  /\ (variables params = None \/ variables params = Some [] ->
      submit_body params = [])
  /\ exists c more,
       calls (submit_catalog_request config auth_manager params item_type) t =
       c :: more
       /\ c_method c = POST /\ c_json c = Some (JObj (submit_body params)).
Proof.
  unfold submit_body. repeat split.
  - destruct (variables params) as [[|kv vars]|]; simpl; try tauto.
    intros _. exists (kv :: vars). now split.
  - intros (vars & -> & Hvars). destruct vars; [contradiction | simpl; auto].
  - intros vars -> Hvars. destruct vars; [contradiction | reflexivity].
  - intros [-> | ->]; reflexivity.
  - destruct (submit_first_call config auth_manager params item_type t)
      as [more Hmore].
    eexists; exists more. split; [exact Hmore | now split].
Qed.

Lemma variables_key_iff_supplied_witness :
  submit_body Ex.item_with_answers = [("variables", JObj [("urgency", JStr "high")])]
  /\ submit_body Ex.item = []
  /\ submit_body {| item_id := "ITM001"; variables := Some [] |} = [].
Proof.
  split; [|split].
  - apply (variables_key_iff_supplied Ex.config Ex.auth Ex.item_with_answers
             "item" Ex.request_with_item); [reflexivity | discriminate].
  - apply (variables_key_iff_supplied Ex.config Ex.auth Ex.item
             "item" Ex.request_with_item). now left.
  - apply (variables_key_iff_supplied Ex.config Ex.auth
             {| item_id := "ITM001"; variables := Some [] |}
             "item" Ex.request_with_item). now right.
Defined.

Lemma leave_no_data (log : list call) (e : exn) r d :
  snd (leave log e) = inr r -> data r = Some d -> False.
Proof.
  unfold leave. destruct (is_request_exception e); simpl; intros Hr Hd.
  - injection Hr as <-. discriminate.
  - discriminate.
Qed.

Lemma get_inr_dict (v : json) (k : string) (default x : json) :
  Py.get v k default = inr x -> exists d, v = JObj d.
Proof. destruct v; try discriminate. intros _. now eexists. Qed.

(** Only an answered submission whose [result] is an object yields data. *)
Lemma submit_data_inv config auth_manager params item_type t r d :
  outcome (submit_catalog_request config auth_manager params item_type) t = inr r ->
  data r = Some d ->
  exists resp result,
    t [] (post_call config auth_manager params item_type) = Response resp
    /\ Py.get resp "result" (JObj []) = inr (JObj result).
Proof.
  unfold outcome. intros Hout Hdata.
  destruct (t [] (post_call config auth_manager params item_type))
    as [msg | resp] eqn:Hpost.
  - exfalso. revert Hout.
    unfold run, submit_catalog_request, try_except. rewrite bind_send.
    fold (post_call config auth_manager params item_type). rewrite Hpost.
    simpl. intros Hr. injection Hr as <-. discriminate.
  - exists resp. rewrite (submit_after_post _ _ _ _ _ _ Hpost) in Hout.
    unfold try_except in Hout.
    destruct (Py.get resp "result" (JObj [])) as [e | v] eqn:Hres.
    + exfalso. rewrite bind_lift_inl in Hout.
      now apply (leave_no_data [post_call config auth_manager params item_type]
                   e r d).
    + rewrite bind_lift_inr in Hout.
      destruct (Py.get v "table" JNull) as [e | table] eqn:Htable.
      * exfalso. rewrite bind_lift_inl in Hout.
        now apply (leave_no_data [post_call config auth_manager params item_type]
                     e r d).
      * destruct (get_inr_dict _ _ _ _ Htable) as [result ->]. now exists result.
Qed.

Lemma index0_dict (v : json) (row : dict) :
  Py.index0 v = inr (JObj row) -> exists more, v = JList (JObj row :: more).
Proof.
  destruct v as [| | | s | l | kv]; try discriminate.
  - destruct s; discriminate.
  - destruct l as [|x more]; [discriminate|].
    simpl. intros H. injection H as ->. now exists more.
Qed.

(** C1, amended.  Every SubmissionResult that [submit_catalog_request]
    produces takes [record_id] and [record_number] from one record: the
    first row of the lookup, else the parent request, else the direct
    record.  The two fields are both populated or both null exactly when
    the identifier and the number that record contributes are both
    non-null or both null; and whenever a record is so resolved, the
    operation returns the success built from exactly those two values. *)
Theorem submission_result_read_from_one_record
  config auth_manager params item_type t :
  (forall r d,
      outcome (submit_catalog_request config auth_manager params item_type) t
      = inr r ->
      data r = Some d ->
      exists record_id record_number,
        resolved config auth_manager params item_type t record_id record_number
        /\ r = submitted record_id record_number
        /\ d = [("record_id", record_id); ("record_number", record_number)]
        /\ (paired d <-> (record_id = JNull <-> record_number = JNull)))
  /\ (forall record_id record_number,
         resolved config auth_manager params item_type t record_id record_number ->
         outcome (submit_catalog_request config auth_manager params item_type) t
         = inr (submitted record_id record_number)).
Proof.
  split.
  - intros r d Hout Hdata.
    destruct (submit_data_inv _ _ _ _ _ _ _ Hout Hdata)
      as (resp & result & Hpost & Hres).
    assert (Hshape : forall record_id record_number,
               resolved config auth_manager params item_type t
                 record_id record_number ->
               @inr exn _ (submitted record_id record_number) = inr r ->
               exists record_id record_number,
                 resolved config auth_manager params item_type t
                   record_id record_number
                 /\ r = submitted record_id record_number
                 /\ d = [("record_id", record_id); ("record_number", record_number)]
                 /\ (paired d <-> (record_id = JNull <-> record_number = JNull))).
    { intros record_id record_number Hfrom [= <-].
      simpl in Hdata. injection Hdata as <-.
      exists record_id, record_number.
      split; [exact Hfrom|]. split; [reflexivity|]. split; [reflexivity|].
      exact (iff_refl _). }
    unfold outcome in Hout.
    rewrite (submit_resolution _ _ _ _ _ _ _ Hpost Hres) in Hout.
    destruct (Py.eq_str (created_table result) "sc_request") eqn:Hmarker.
    + destruct (Py.truthy (parent_id result)) eqn:Hparent;
        [|now destruct (leave_no_data _ _ _ _ Hout Hdata)].
      cbv zeta in Hout.
      destruct (t [post_call config auth_manager params item_type]
                  (ritm_call config auth_manager (parent_id result)))
        as [msg | ritm_resp] eqn:Hlookup;
        [now destruct (leave_no_data _ _ _ _ Hout Hdata)|].
      destruct (Py.get ritm_resp "result" (JList [])) as [e | ritm_list] eqn:Hlist;
        [now destruct (leave_no_data _ _ _ _ Hout Hdata)|].
      destruct (Py.truthy ritm_list) eqn:Hrows.
      * destruct (Py.index0 ritm_list) as [e | first] eqn:Hfirst;
          [now destruct (leave_no_data _ _ _ _ Hout Hdata)|].
        destruct (Py.get first "sys_id" JNull) as [e | record_id] eqn:Hid;
          [now destruct (leave_no_data _ _ _ _ Hout Hdata)|].
        destruct (get_inr_dict _ _ _ _ Hid) as [row ->].
        destruct (index0_dict _ _ Hfirst) as [more ->].
        rewrite get_dict in Hid. injection Hid as <-.
        rewrite get_dict in Hout. simpl in Hout.
        exact (Hshape _ _ (from_row _ _ _ _ _ _ _ _ _ _ Hpost Hres Hmarker Hparent
                             Hlookup Hlist) Hout).
      * simpl in Hout.
        exact (Hshape _ _ (from_parent _ _ _ _ _ _ _ _ _ Hpost Hres Hmarker Hparent
                             Hlookup Hlist Hrows) Hout).
    + simpl in Hout.
      exact (Hshape _ _ (from_direct _ _ _ _ _ _ _ Hpost Hres Hmarker) Hout).
  - intros record_id record_number Hfrom. unfold outcome.
    destruct Hfrom as [resp result ritm_resp row more Hpost Hres Hmarker Hparent
                         Hlookup Hlist
                      | resp result ritm_resp ritm_list Hpost Hres Hmarker Hparent
                          Hlookup Hlist Hrows
                      | resp result Hpost Hres Hmarker];
      rewrite (submit_resolution _ _ _ _ _ _ _ Hpost Hres), Hmarker.
    + rewrite Hparent. cbv zeta. now rewrite Hlookup, Hlist.
    + rewrite Hparent. cbv zeta. now rewrite Hlookup, Hlist, Hrows.
    + reflexivity.
Qed.

Lemma submission_result_read_from_one_record_witness :
  (exists record_id record_number,
      resolved Ex.config Ex.auth Ex.producer "producer" Ex.unnumbered_record
        record_id record_number
      /\ submitted (JStr "INC1") JNull = submitted record_id record_number
      /\ [("record_id", JStr "INC1"); ("record_number", JNull)]
         = [("record_id", record_id); ("record_number", record_number)]
      /\ (paired [("record_id", JStr "INC1"); ("record_number", JNull)] <->
          (record_id = JNull <-> record_number = JNull)))
  /\ outcome (submit_catalog_request Ex.config Ex.auth Ex.item "item")
             Ex.request_with_item
     = inr (submitted (JStr "RITM9") (JStr "RITM0009")).
Proof.
  split.
  - exact (proj1 (submission_result_read_from_one_record Ex.config Ex.auth
                    Ex.producer "producer" Ex.unnumbered_record)
             (submitted (JStr "INC1") JNull)
             [("record_id", JStr "INC1"); ("record_number", JNull)]
             eq_refl eq_refl).
  - apply (proj2 (submission_result_read_from_one_record Ex.config Ex.auth
                    Ex.item "item" Ex.request_with_item)
             (field Ex.row_RITM9 "sys_id") (field Ex.row_RITM9 "number")).
    exact (from_row Ex.config Ex.auth Ex.item "item" Ex.request_with_item
             (Ex.wrap (JObj Ex.request_REQ1)) Ex.request_REQ1
             (Ex.wrap (JList [JObj Ex.row_RITM9])) Ex.row_RITM9 []
             eq_refl eq_refl eq_refl eq_refl eq_refl eq_refl).
Defined.

(** C1, as stated, fails: a direct record with a [sys_id] and no number
    yields [record_id = "INC1"] next to [record_number = None]. *)
Lemma unnumbered_record_is_unpaired :
  outcome (submit_catalog_request Ex.config Ex.auth Ex.producer "producer")
          Ex.unnumbered_record =
  inr (submitted (JStr "INC1") JNull)
  /\ ~ result_paired
       (outcome (submit_catalog_request Ex.config Ex.auth Ex.producer "producer")
                Ex.unnumbered_record).
Proof.
  split; [reflexivity|].
  intros Hpaired.
  destruct (Hpaired _ _ eq_refl eq_refl) as [_ Hnull].
  discriminate (Hnull eq_refl).
Qed.

(** ** Get item and list items *)

Lemma project_dict (item : dict) (fields : list (string * string)) :
  project (JObj item) fields = inr (projection item fields).
Proof.
  induction fields as [|[name key] rest IH]; [reflexivity|].
  simpl. now rewrite IH.
Qed.

Lemma format_items_dicts (items : list dict) :
  format_items (map JObj items) =
  inr (map (fun item => JObj (projection item list_item_fields)) items).
Proof.
  induction items as [|item rest IH]; [reflexivity|].
  cbn [map format_items]. now rewrite project_dict, IH.
Qed.

Lemma projection_get (item : dict) (fields : list (string * string)) name key :
  NoDup (map fst fields) -> In (name, key) fields ->
  Py.dict_get (projection item fields) name =
  Some (match Py.dict_get item key with Some v => v | None => JStr "" end).
Proof.
  induction fields as [|[n k] rest IH]; [contradiction|].
  cbn [map fst projection Py.dict_get snd]. intros Hnodup [Heq | Hin].
  - injection Heq as -> ->. now rewrite String.eqb_refl.
  - inversion Hnodup as [|? ? Hfresh Hrest]; subst.
    destruct (String.eqb n name) eqn:Hn; [|now apply IH].
    apply String.eqb_eq in Hn. subst n. exfalso. apply Hfresh.
    change name with (fst (name, key)). now apply in_map.
Qed.

Lemma item_fields_distinct :
  NoDup (map fst list_item_fields) /\ NoDup (map fst get_item_fields).
Proof.
  split; simpl;
    repeat (constructor; [simpl; intuition discriminate|]); constructor.
Qed.

(** C9.  When the call of [get_catalog_item] is answered and the [result]
    of the answer is empty (missing, null, or an empty object or list),
    the outcome is a failure whose message is
    [Catalog item not found: <item id>] and whose data is null. *)
Theorem get_item_not_found config auth_manager params t resp item :
  t [] (get_item_call config auth_manager params) = Response resp ->
  Py.get resp "result" (JObj []) = inr item ->
  Py.truthy item = false ->
  run (get_catalog_item config auth_manager params) t =
  ([get_item_call config auth_manager params],
   inr (mk_response false
          (Py.fstr ["Catalog item not found: "; gci_item_id params]) None)).
Proof.
  intros Hget Hres Hempty.
  unfold run, get_catalog_item, try_except. rewrite bind_send.
  change (t [] _) with (t [] (get_item_call config auth_manager params)).
  now rewrite Hget, Hres, bind_lift_inr, Hempty.
Qed.

Lemma get_item_not_found_witness :
  run (get_catalog_item Ex.config Ex.auth Ex.get_item) Ex.item_missing =
  ([get_item_call Ex.config Ex.auth Ex.get_item],
   inr (mk_response false "Catalog item not found: ITM001" None)).
Proof.
  exact (get_item_not_found Ex.config Ex.auth Ex.get_item Ex.item_missing
           (Ex.wrap (JObj [])) (JObj []) eq_refl eq_refl eq_refl).
Defined.

(** C8, amended.  For an answered [get_catalog_item] whose result is a
    non-empty object, and for an answered [list_catalog_items] whose result
    is a list of objects, the data is the projection of the payload: every
    projected field is the payload's value under its key when the key is
    present and the empty string when it is missing.  A projected field is
    null exactly when the payload binds its key to an explicit null. *)
Theorem projection_of_payload :
  (forall config auth_manager params t resp item,
      t [] (get_item_call config auth_manager params) = Response resp ->
      Py.get resp "result" (JObj []) = inr (JObj item) ->
      item <> [] ->
      run (get_catalog_item config auth_manager params) t =
      ([get_item_call config auth_manager params],
       inr (mk_response true
              (Py.fstr ["Retrieved catalog item: ";
                        Py.str (match Py.dict_get item "name" with
                                | Some v => v
                                | None => JStr ""
                                end)])
              (Some (projection item get_item_fields)))))
  /\ (forall config auth_manager params t resp items,
         t [] (list_items_call config auth_manager params) = Response resp ->
         Py.get resp "result" (JList []) = inr (JList (map JObj items)) ->
         exists d,
           run (list_catalog_items config auth_manager params) t =
           ([list_items_call config auth_manager params], inr d)
           /\ Py.dict_get d "success" = Some (JBool true)
           /\ Py.dict_get d "items" =
              Some (JList (map (fun item => JObj (projection item list_item_fields))
                             items)))
  /\ (forall item fields name key,
         fields = list_item_fields \/ fields = get_item_fields ->
         In (name, key) fields ->
         (forall v, Py.dict_get item key = Some v ->
                    Py.dict_get (projection item fields) name = Some v)
         /\ (Py.dict_get item key = None ->
             Py.dict_get (projection item fields) name = Some (JStr ""))
         /\ (Py.dict_get (projection item fields) name = Some JNull <->
             Py.dict_get item key = Some JNull)).
Proof.
  split; [|split].
  - intros config auth_manager params t resp item Hget Hres Hitem.
    unfold run, get_catalog_item, try_except. rewrite bind_send.
    change (t [] _) with (t [] (get_item_call config auth_manager params)).
    rewrite Hget, Hres, bind_lift_inr.
    destruct item as [|kv item]; [contradiction|].
    cbn [Py.truthy negb]. cbv iota.
    now rewrite project_dict, bind_lift_inr.
  - intros config auth_manager params t resp items Hget Hres.
    eexists. split; [|split].
    + unfold run, list_catalog_items, try_except. rewrite bind_send.
      change (t [] _) with (t [] (list_items_call config auth_manager params)).
      rewrite Hget, Hres, bind_lift_inr. cbn [Py.iter].
      rewrite bind_lift_inr, format_items_dicts, bind_lift_inr. reflexivity.
    + reflexivity.
    + reflexivity.
  - intros item fields name key Hfields Hin.
    assert (Hget : Py.dict_get (projection item fields) name =
                   Some (match Py.dict_get item key with
                         | Some v => v
                         | None => JStr ""
                         end)).
    { apply projection_get; [|exact Hin].
      destruct Hfields as [-> | ->]; apply item_fields_distinct. }
    rewrite Hget. repeat split.
    + now intros v ->.
    + now intros ->.
    + destruct (Py.dict_get item key); [congruence | discriminate].
    + now intros ->.
Qed.

Lemma projection_of_payload_witness :
  data_field
    {| success := true; message := "Retrieved catalog item: None";
       data := Some (projection [("sys_id", JStr "ITM001"); ("name", JNull)]
                       get_item_fields) |} "price" = Some (JStr "")
  /\ snd (run (get_catalog_item Ex.config Ex.auth Ex.get_item)
              Ex.item_with_null_name) =
     inr {| success := true; message := "Retrieved catalog item: None";
            data := Some (projection [("sys_id", JStr "ITM001"); ("name", JNull)]
                            get_item_fields) |}.
Proof.
  destruct projection_of_payload as (Hget & _ & Hfields).
  split.
  - apply (Hfields [("sys_id", JStr "ITM001"); ("name", JNull)] get_item_fields
             "price" "price"); [now right | simpl; tauto | reflexivity].
  - rewrite (Hget Ex.config Ex.auth Ex.get_item Ex.item_with_null_name
               (Ex.wrap (JObj [("sys_id", JStr "ITM001"); ("name", JNull)]))
               [("sys_id", JStr "ITM001"); ("name", JNull)]
               eq_refl eq_refl); [reflexivity | discriminate].
Defined.

(** C8, as stated, fails: a payload that binds [name] to an explicit null
    is projected with [name] null. *)
Lemma null_name_is_projected_null :
  data_field
    {| success := true; message := "Retrieved catalog item: None";
       data := Some (projection [("sys_id", JStr "ITM001"); ("name", JNull)]
                       get_item_fields) |} "name" = Some JNull
  /\ ~ projected_never_null
         (outcome (get_catalog_item Ex.config Ex.auth Ex.get_item)
                  Ex.item_with_null_name).
Proof.
  split; [reflexivity|].
  intros Hnever. now apply (Hnever _ _ "name" eq_refl eq_refl).
Qed.

(** ** Move items *)

Lemma moved_failures_total (rs : list (string * reply)) :
  (moved rs + Py.len (failures rs) = Py.len rs)%Z
  /\ (0 <= moved rs)%Z /\ (0 <= Py.len (failures rs))%Z.
Proof.
  unfold Py.len.
  induction rs as [|[item_id [msg | body]] rest IH];
    cbn [failures moved length] in *; lia.
Qed.

Lemma replies_length t log url target headers ids :
  length (replies_from t log url target headers ids) = length ids.
Proof.
  revert log. induction ids as [|item_id rest IH]; intros log; simpl; [|rewrite IH];
    reflexivity.
Qed.

(** The loop of lines 523-535 never raises: it counts the answered calls
    and records the failed ones, in order. *)
Lemma move_loop_run url target headers ids success_count failed_items t log :
  move_loop url target headers ids success_count failed_items t log =
  let rs := replies_from t log url target headers ids in
  (log ++ map (patch_call url target headers) ids,
   inr ((success_count + moved rs)%Z, failed_items ++ failures rs)).
Proof.
  revert success_count failed_items log.
  induction ids as [|item_id rest IH]; intros success_count failed_items log.
  - simpl. now rewrite Z.add_0_r, !app_nil_r.
  - cbn [move_loop replies_from map]. unfold bind at 1, try_except.
    rewrite bind_send. fold (patch_call url target headers item_id).
    destruct (t log (patch_call url target headers item_id)) as [msg | body];
      cbn [is_request_exception ret fst snd]; rewrite IH; cbv zeta;
      cbn [failures moved]; rewrite <- !app_assoc; simpl app;
      [reflexivity | now rewrite Z.add_assoc].
Qed.

Lemma move_catalog_items_run config auth_manager params t :
  run (move_catalog_items config auth_manager params) t =
  let rs := move_replies config auth_manager params t in
  let success_count := moved rs in
  let failed_items := failures rs in
  (map (patch_call (move_url config) (target_category_id params)
          (move_headers auth_manager)) (item_ids params),
   inr (if Z.eqb success_count (Py.len (item_ids params)) then
          mk_response true
            (Py.fstr ["Successfully moved "; Py.str_of_int success_count;
                      " catalog items to category "; target_category_id params])
            (Some [("moved_items_count", JNum success_count)])
        else if Z.ltb 0 success_count then
          mk_response true
            (Py.fstr ["Partially moved catalog items. ";
                      Py.str_of_int success_count; " succeeded, ";
                      Py.str_of_int (Py.len failed_items); " failed."])
            (Some [("moved_items_count", JNum success_count);
                   ("failed_items", JList failed_items)])
        else
          mk_response false "Failed to move any catalog items"
            (Some [("failed_items", JList failed_items)]))).
Proof.
  unfold run, move_catalog_items, try_except, bind.
  fold (move_url config). fold (move_headers auth_manager).
  rewrite move_loop_run. cbv zeta. cbn [fst snd app Z.add].
  fold (move_replies config auth_manager params t).
  destruct (Z.eqb (moved (move_replies config auth_manager params t))
              (Py.len (item_ids params))); [reflexivity|].
  now destruct (Z.ltb 0 (moved (move_replies config auth_manager params t))).
Qed.

(** C6, amended.  With [N] item ids of which the transport fails exactly
    [k], [move_catalog_items] always returns an outcome: for [k < N] it is
    a success whose [moved_items_count] is [N - k] and, when [k > 0], whose
    [failed_items] are the failing ids with their error text, in order;
    for [k = N] with [N > 0] it is a failure that still carries that list;
    for the empty list it is a success counting zero moved items. *)
Theorem move_items_outcome config auth_manager params t :
  exists r,
    outcome (move_catalog_items config auth_manager params) t = inr r
    /\ length (move_replies config auth_manager params t) =
       length (item_ids params)
    /\ ((Py.len (failures (move_replies config auth_manager params t))
         < Py.len (item_ids params))%Z ->
        success r = true
        /\ data_field r "moved_items_count" =
           Some (JNum (Py.len (item_ids params)
                       - Py.len (failures (move_replies config auth_manager params t))))
        /\ ((0 < Py.len (failures (move_replies config auth_manager params t)))%Z ->
            data_field r "failed_items" =
            Some (JList (failures (move_replies config auth_manager params t)))))
    /\ (Py.len (failures (move_replies config auth_manager params t))
        = Py.len (item_ids params) ->
        (0 < Py.len (item_ids params))%Z ->
        success r = false
        /\ data r =
           Some [("failed_items",
                  JList (failures (move_replies config auth_manager params t)))])
    /\ (item_ids params = [] ->
        success r = true /\ data r = Some [("moved_items_count", JNum 0)]).
Proof.
  eexists. unfold outcome. rewrite move_catalog_items_run. cbv zeta.
  split; [reflexivity|].
  set (rs := move_replies config auth_manager params t).
  assert (Hlen : length rs = length (item_ids params))
    by apply replies_length.
  destruct (moved_failures_total rs) as (Htotal & Hmoved & Hfailed).
  unfold Py.len in *. rewrite Hlen in Htotal. cbn [snd].
  split; [exact Hlen|].
  destruct (Z.eqb_spec (moved rs) (Z.of_nat (length (item_ids params))))
    as [Hall | Hsome].
  - split; [|split].
    + intros Hless. split; [reflexivity|]. split; [|lia].
      cbn. do 2 f_equal. lia.
    + lia.
    + intros Hids. split; [reflexivity|]. rewrite Hall, Hids. reflexivity.
  - assert (Hids : item_ids params <> []).
    { intros Hids. rewrite Hids in *. simpl in *. lia. }
    destruct (Z.ltb_spec 0 (moved rs)) as [Hpos | Hnone].
    + split; [|split].
      * intros Hless. split; [reflexivity|]. split; [|reflexivity].
        cbn. do 2 f_equal. lia.
      * lia.
      * contradiction.
    + split; [|split].
      * lia.
      * intros _ _. split; reflexivity.
      * contradiction.
Qed.

Lemma move_items_outcome_witness :
  exists r,
    outcome (move_catalog_items Ex.config Ex.auth Ex.move_three) Ex.second_fails
    = inr r
    /\ success r = true
    /\ data_field r "moved_items_count" = Some (JNum 2)
    /\ data_field r "failed_items" =
       Some (JList [failed_entry "b" "404 Client Error: Not Found"]).
Proof.
  destruct (move_items_outcome Ex.config Ex.auth Ex.move_three Ex.second_fails)
    as (r & Hout & _ & Hpartial & _).
  exists r. split; [exact Hout|].
  destruct Hpartial as (Hok & Hcount & Hfailed); [reflexivity|].
  split; [exact Hok|]. split; [exact Hcount | exact (Hfailed eq_refl)].
Defined.

(** C6, as stated, fails on the empty list: there [k = N = 0], and the
    outcome is a success. *)
Lemma empty_move_succeeds :
  outcome (move_catalog_items Ex.config Ex.auth Ex.move_none) Ex.all_fail =
  inr (mk_response true "Successfully moved 0 catalog items to category CAT1"
         (Some [("moved_items_count", JNum 0)]))
  /\ ~ move_claim Ex.config Ex.auth Ex.move_none Ex.all_fail.
Proof.
  split; [reflexivity|].
  intros (r & Hout & _ & Hall).
  injection Hout as <-. discriminate (Hall eq_refl).
Qed.


(** ** How many calls an action issues *)

Section Within.

Context {A : Type} (P : call -> Prop).

Lemma within_ret (n : nat) (a : A) : sends_within P n (ret a).
Proof.
  intros t log. exists []. simpl. rewrite app_nil_r. repeat split; auto. lia.
Qed.

Lemma within_raise (n : nat) (e : exn) : sends_within P n (@raise A e).
Proof.
  intros t log. exists []. simpl. rewrite app_nil_r. repeat split; auto. lia.
Qed.

Lemma within_lift (n : nat) (r : exn + A) : sends_within P n (lift r).
Proof.
  intros t log. exists []. simpl. rewrite app_nil_r. repeat split; auto. lia.
Qed.

Lemma within_if (n : nat) (b : bool) (m1 m2 : M A) :
  sends_within P n m1 -> sends_within P n m2 ->
  sends_within P n (if b then m1 else m2).
Proof. now destruct b. Qed.

Lemma within_try (n : nat) (m : M A) (caught : exn -> bool) (h : exn -> M A) :
  sends_within P n m -> (forall e, sends_within P 0 (h e)) ->
  sends_within P n (try_except m caught h).
Proof.
  intros Hm Hh t log. unfold try_except.
  destruct (Hm t log) as (more & Hlog & Hlen & Hall).
  destruct (m t log) as [log' [e | a]]; simpl in *; subst log'.
  - destruct (caught e); [|now exists more].
    destruct (Hh e t (log ++ more)) as (more' & -> & Hlen' & _).
    destruct more'; [|simpl in Hlen'; lia].
    exists more. now rewrite app_nil_r.
  - now exists more.
Qed.

End Within.

Lemma within_send (P : call -> Prop) (n : nat) (c : call) :
  P c -> sends_within P (S n) (send c).
Proof.
  intros Hc t log. exists [c]. simpl. repeat split; auto. lia.
Qed.

Lemma within_bind {A B : Type} (P : call -> Prop) (a b : nat)
  (m : M A) (f : A -> M B) :
  sends_within P a m -> (forall x, sends_within P b (f x)) ->
  sends_within P (a + b) (bind m f).
Proof.
  intros Hm Hf t log. unfold bind.
  destruct (Hm t log) as (more & Hlog & Hlen & Hall).
  destruct (m t log) as [log' [e | x]]; simpl in *; subst log'.
  - exists more. repeat split; auto. lia.
  - destruct (Hf x t (log ++ more)) as (more' & -> & Hlen' & Hall').
    exists (more ++ more'). rewrite app_assoc, length_app.
    repeat split; [lia | now apply Forall_app].
Qed.

Lemma within_bind_quiet {A B : Type} (P : call -> Prop) (n : nat)
  (m : M A) (f : A -> M B) :
  sends_within P 0 m -> (forall x, sends_within P n (f x)) ->
  sends_within P n (bind m f).
Proof. intros Hm Hf. now apply (within_bind P 0 n). Qed.

Lemma within_bind_last {A B : Type} (P : call -> Prop) (n : nat)
  (m : M A) (f : A -> M B) :
  sends_within P n m -> (forall x, sends_within P 0 (f x)) ->
  sends_within P n (bind m f).
Proof.
  intros Hm Hf. rewrite <- (Nat.add_0_r n). now apply within_bind.
Qed.

Lemma within_bind_send {B : Type} (P : call -> Prop) (n : nat)
  (c : call) (f : json -> M B) :
  P c -> (forall x, sends_within P n (f x)) ->
  sends_within P (S n) (bind (send c) f).
Proof.
  intros Hc Hf. change (S n) with (1 + n).
  apply within_bind; [now apply within_send | exact Hf].
Qed.

(** Actions that touch no transport. *)
Ltac quiet :=
  repeat first [ apply within_ret | apply within_raise | apply within_lift
               | apply within_if
               | apply within_bind_quiet; [|intro] ].

(** A guarded block that opens with [send c]: [c] heads the log and what
    follows is bounded by the rest of the block. *)
Lemma guarded_send {A : Type} (P : call -> Prop) (n : nat) (c : call)
  (k : json -> M A) (caught : exn -> bool) (h : exn -> M A) (t : transport) :
  (forall body, sends_within P n (k body)) ->
  (forall e, sends_within P 0 (h e)) ->
  exists more,
    fst (try_except (bind (send c) k) caught h t []) = c :: more
    /\ length more <= n /\ Forall P more.
Proof.
  intros Hk Hh.
  unfold try_except. rewrite bind_send. change ([] ++ [c]) with [c].
  destruct (t [] c) as [msg | body].
  - exists []. simpl. destruct (caught (RequestException msg)).
    + destruct (Hh (RequestException msg) t [c]) as (more & -> & Hlen & _).
      destruct more; [|simpl in Hlen; lia]. repeat split; auto. lia.
    + repeat split; auto. lia.
  - destruct (Hk body t [c]) as (more & Hlog & Hlen & Hall).
    exists more.
    destruct (k body t [c]) as [log' [e | a]]; simpl in *; subst log'.
    + destruct (caught e); [|now repeat split].
      destruct (Hh e t (c :: more)) as (more' & -> & Hlen' & _).
      destruct more'; [|simpl in Hlen'; lia]. now rewrite app_nil_r.
    + now repeat split.
Qed.

(** ** One round trip per read or write *)

Lemma one_call {A : Type} (c : call) (k : json -> M A) (caught : exn -> bool)
  (h : exn -> M A) (t : transport) :
  (forall body, sends_within (fun _ => True) 0 (k body)) ->
  (forall e, sends_within (fun _ => True) 0 (h e)) ->
  fst (try_except (bind (send c) k) caught h t []) = [c].
Proof.
  intros Hk Hh.
  destruct (guarded_send (fun _ => True) 0 c k caught h t Hk Hh)
    as (more & -> & Hlen & _).
  destruct more; [reflexivity | simpl in Hlen; lia].
Qed.

(** X1.  [get_catalog_item] issues exactly one call whatever the remote
    side answers: the GET of the item, with the two display parameters. *)
Theorem get_item_single_call config auth_manager params t :
  calls (get_catalog_item config auth_manager params) t =
  [get_item_call config auth_manager params].
Proof.
  unfold calls, run, get_catalog_item, get_item_call.
  apply one_call; intros; quiet.
Qed.

(** X2.  [list_catalog_items] issues exactly one call whatever the remote
    side answers: the GET of the item table with the query parameters. *)
Theorem list_items_single_call config auth_manager params t :
  calls (list_catalog_items config auth_manager params) t =
  [list_items_call config auth_manager params].
Proof.
  unfold calls, run, list_catalog_items, list_items_call.
  apply one_call; intros; quiet.
Qed.

(** ** Transport failures become failed outcomes *)

Lemma guarded_failure {A : Type} (c : call) (k : json -> M A) (h : exn -> M A)
  (t : transport) (msg : string) :
  t [] c = Failed msg ->
  try_except (bind (send c) k) is_request_exception h t [] =
  h (RequestException msg) t [c].
Proof.
  intros Hfail. unfold try_except. rewrite bind_send, Hfail. reflexivity.
Qed.

Lemma guarded_answer {A : Type} (c : call) (k : json -> M A) (h : exn -> M A)
  (t : transport) (body : json) :
  t [] c = Response body ->
  try_except (bind (send c) k) is_request_exception h t [] =
  try_except (k body) is_request_exception h t [c].
Proof.
  intros Hanswer. unfold try_except. rewrite bind_send, Hanswer. reflexivity.
Qed.

(** X3.  When the transport fails the call of [get_catalog_item], the
    outcome is a failure whose message is [Error getting catalog item: ]
    followed by the text of the failure, and whose data is null. *)
Theorem get_item_transport_failure config auth_manager params t msg :
  t [] (get_item_call config auth_manager params) = Failed msg ->
  run (get_catalog_item config auth_manager params) t =
  ([get_item_call config auth_manager params],
   inr (mk_response false (Py.fstr ["Error getting catalog item: "; msg]) None)).
Proof.
  intros Hfail. unfold run, get_catalog_item.
  exact (guarded_failure _ _ _ _ _ Hfail).
Qed.

Lemma get_item_transport_failure_witness :
  run (get_catalog_item Ex.config Ex.auth Ex.get_item) Ex2.down =
  ([get_item_call Ex.config Ex.auth Ex.get_item],
   inr (mk_response false "Error getting catalog item: 503 Server Error" None)).
Proof.
  exact (get_item_transport_failure Ex.config Ex.auth Ex.get_item Ex2.down
           "503 Server Error" eq_refl).
Defined.

(** X4.  When the transport fails the call of [list_catalog_items], the
    returned dict reports failure with the text of the failure, an empty
    item list, a total of zero, and the caller's [limit] and [offset]
    unchanged. *)
Theorem list_items_transport_failure config auth_manager params t msg :
  t [] (list_items_call config auth_manager params) = Failed msg ->
  run (list_catalog_items config auth_manager params) t =
  ([list_items_call config auth_manager params],
   inr [("success", JBool false);
        ("message", JStr (Py.fstr ["Error listing catalog items: "; msg]));
        ("items", JList []);
        ("total", JNum 0);
        ("limit", JNum (limit params));
        ("offset", JNum (offset params))]).
Proof.
  intros Hfail. unfold run, list_catalog_items.
  exact (guarded_failure _ _ _ _ _ Hfail).
Qed.

Lemma list_items_transport_failure_witness :
  run (list_catalog_items Ex.config Ex.auth Ex2.all_pages) Ex2.down =
  ([list_items_call Ex.config Ex.auth Ex2.all_pages],
   inr [("success", JBool false);
        ("message", JStr "Error listing catalog items: 503 Server Error");
        ("items", JList []);
        ("total", JNum 0);
        ("limit", JNum 50);
        ("offset", JNum 100)]).
Proof.
  exact (list_items_transport_failure Ex.config Ex.auth Ex2.all_pages Ex2.down
           "503 Server Error" eq_refl).
Defined.

(** X5.  When the transport fails the submission itself,
    [submit_catalog_request] returns a failure whose message is
    [Error submitting catalog request: ] followed by the text of the
    failure, with null data, and issues no lookup. *)
Theorem submit_transport_failure config auth_manager params item_type t msg :
  t [] (post_call config auth_manager params item_type) = Failed msg ->
  run (submit_catalog_request config auth_manager params item_type) t =
  ([post_call config auth_manager params item_type],
   inr (mk_response false
          (Py.fstr ["Error submitting catalog request: "; msg]) None)).
Proof.
  intros Hfail. unfold run, submit_catalog_request.
  exact (guarded_failure _ _ _ _ _ Hfail).
Qed.

Lemma submit_transport_failure_witness :
  run (submit_catalog_request Ex.config Ex.auth Ex.item "item") Ex2.down =
  ([post_call Ex.config Ex.auth Ex.item "item"],
   inr (mk_response false
          "Error submitting catalog request: 503 Server Error" None)).
Proof.
  exact (submit_transport_failure Ex.config Ex.auth Ex.item "item" Ex2.down
           "503 Server Error" eq_refl).
Defined.

(** X6.  When the submission created a parent request with a usable
    identifier and the transport fails the request-item lookup,
    [submit_catalog_request] returns a failure carrying the text of that
    failure and null data: nothing of the parent request is reported. *)
Theorem submit_lookup_failure config auth_manager params item_type t
  resp result msg :
  t [] (post_call config auth_manager params item_type) = Response resp ->
  Py.get resp "result" (JObj []) = inr (JObj result) ->
  Py.eq_str (created_table result) "sc_request" = true ->
  Py.truthy (parent_id result) = true ->
  t [post_call config auth_manager params item_type]
    (ritm_call config auth_manager (parent_id result)) = Failed msg ->
  run (submit_catalog_request config auth_manager params item_type) t =
  ([post_call config auth_manager params item_type;
    ritm_call config auth_manager (parent_id result)],
   inr (mk_response false
          (Py.fstr ["Error submitting catalog request: "; msg]) None)).
Proof.
  intros Hpost Hres Hmarker Hid Hlookup.
  rewrite (submit_resolution _ _ _ _ _ _ _ Hpost Hres).
  rewrite Hmarker, Hid. cbv zeta. now rewrite Hlookup.
Qed.

Lemma submit_lookup_failure_witness :
  run (submit_catalog_request Ex.config Ex.auth Ex.item "item")
      Ex2.lookup_refused =
  ([post_call Ex.config Ex.auth Ex.item "item";
    ritm_call Ex.config Ex.auth (JStr "REQ1")],
   inr (mk_response false
          "Error submitting catalog request: 403 Client Error: Forbidden" None)).
Proof.
  exact (submit_lookup_failure Ex.config Ex.auth Ex.item "item"
           Ex2.lookup_refused (Ex.wrap (JObj Ex.request_REQ1)) Ex.request_REQ1
           "403 Client Error: Forbidden" eq_refl eq_refl eq_refl eq_refl eq_refl).
Defined.

(** ** What leaves a guarded operation *)

Lemma guarded_escape {A : Type} (m : M A) (caught : exn -> bool) (h : exn -> M A)
  (t : transport) log e :
  (forall e', never_raises (h e')) ->
  snd (try_except m caught h t log) = inl e -> caught e = false.
Proof.
  intros Hh. unfold try_except.
  destruct (m t log) as [log' [e' | a]]; [|discriminate].
  destruct (caught e') eqn:Hcaught.
  - destruct (Hh e' t log') as [a Ha]. rewrite Ha. discriminate.
  - simpl. now intros [= <-].
Qed.

Lemma ret_never_raises {A : Type} (a : A) : never_raises (ret a).
Proof. intros t log. now exists a. Qed.

Section Yields.

Context {A : Type} (Q : A -> Prop).

Lemma yields_ret (a : A) : Q a -> yields Q (ret a).
Proof. intros Ha t log a' [= <-]. exact Ha. Qed.

Lemma yields_raise (e : exn) : yields Q (raise e).
Proof. intros t log a. discriminate. Qed.

Lemma yields_if (b : bool) (m1 m2 : M A) :
  yields Q m1 -> yields Q m2 -> yields Q (if b then m1 else m2).
Proof. now destruct b. Qed.

Lemma yields_bind {X : Type} (m : M X) (f : X -> M A) :
  (forall x, yields Q (f x)) -> yields Q (bind m f).
Proof.
  intros Hf t log a. unfold bind.
  destruct (m t log) as [log' [e | x]]; [discriminate | apply Hf].
Qed.

Lemma yields_try (m : M A) (caught : exn -> bool) (h : exn -> M A) :
  yields Q m -> (forall e, yields Q (h e)) -> yields Q (try_except m caught h).
Proof.
  intros Hm Hh t log a. unfold try_except.
  specialize (Hm t log).
  destruct (m t log) as [log' [e | a']].
  - destruct (caught e); [apply Hh | discriminate].
  - exact (Hm a).
Qed.

End Yields.

Ltac yielding :=
  repeat first [ apply yields_try | apply yields_bind | apply yields_if
               | apply yields_raise | apply yields_ret | intro ].

(** X7.  No transport failure ever leaves a guarded operation as an
    exception: whatever [get_catalog_item], [list_catalog_items],
    [list_catalog_categories], [create_catalog_category],
    [update_catalog_category] or [submit_catalog_request] raises is not a
    [RequestException]. *)
Theorem request_exceptions_never_escape config auth_manager t e :
  (forall params,
      outcome (get_catalog_item config auth_manager params) t = inl e -> escapes e)
  /\ (forall params,
         outcome (list_catalog_items config auth_manager params) t = inl e ->
         escapes e)
  /\ (forall params,
         outcome (list_catalog_categories config auth_manager params) t = inl e ->
         escapes e)
  /\ (forall params,
         outcome (create_catalog_category config auth_manager params) t = inl e ->
         escapes e)
  /\ (forall params,
         outcome (update_catalog_category config auth_manager params) t = inl e ->
         escapes e)
  /\ (forall params item_type,
         outcome (submit_catalog_request config auth_manager params item_type) t
         = inl e ->
         escapes e).
Proof.
  unfold outcome, run, escapes.
  repeat split; intros; eapply guarded_escape; eauto;
    intros; apply ret_never_raises.
Qed.

Lemma request_exceptions_never_escape_witness :
  escapes (RuntimeError "Cannot locate sys_id for created record").
Proof.
  destruct (request_exceptions_never_escape Ex.config Ex.auth
              Ex.request_without_id
              (RuntimeError "Cannot locate sys_id for created record"))
    as (_ & _ & _ & _ & _ & Hsubmit).
  exact (Hsubmit Ex.item "item" eq_refl).
Defined.

(** X8.  Every outcome returned by [get_catalog_item],
    [create_catalog_category], [update_catalog_category] and
    [submit_catalog_request] is either a failure with null data or a
    success with data: no failure carries a partial record. *)
Theorem returned_outcomes_well_formed config auth_manager t r :
  (forall params,
      outcome (get_catalog_item config auth_manager params) t = inr r ->
      well_formed r)
  /\ (forall params,
         outcome (create_catalog_category config auth_manager params) t = inr r ->
         well_formed r)
  /\ (forall params,
         outcome (update_catalog_category config auth_manager params) t = inr r ->
         well_formed r)
  /\ (forall params item_type,
         outcome (submit_catalog_request config auth_manager params item_type) t
         = inr r ->
         well_formed r).
Proof.
  assert (Hfail : forall msg, well_formed (mk_response false msg None))
    by (intros; left; now split).
  assert (Hok : forall msg d, well_formed (mk_response true msg (Some d)))
    by (intros; right; split; [reflexivity | now eexists]).
  unfold outcome, run.
  repeat split; intros params; intros;
    match goal with
    | H : snd (?m t []) = inr r |- _ =>
        assert (Hy : yields well_formed m); [|exact (Hy t [] r H)]
    end.
  - unfold get_catalog_item. yielding; auto.
  - unfold create_catalog_category. yielding; auto.
  - unfold update_catalog_category. yielding; auto.
  - unfold submit_catalog_request. yielding; auto.
Qed.

Lemma returned_outcomes_well_formed_witness :
  well_formed (submitted (JStr "RITM9") (JStr "RITM0009")).
Proof.
  destruct (returned_outcomes_well_formed Ex.config Ex.auth Ex.request_with_item
              (submitted (JStr "RITM9") (JStr "RITM0009")))
    as (_ & _ & _ & Hsubmit).
  exact (Hsubmit Ex.item "item" eq_refl).
Defined.

(** ** The calls of a submission *)

Ltac bounded :=
  repeat first [ apply within_ret | apply within_raise | apply within_lift
               | apply within_if
               | apply within_bind_send; [|intro]
               | apply within_bind_quiet; [solve [quiet] | intro]
               | apply within_bind_last; [|intro; solve [quiet]] ].

(** X9.  Whatever the remote side answers, [submit_catalog_request] issues
    the submission first and at most one further call, and that call is a
    request-item lookup: never a second submission, never a retry. *)
Theorem submit_at_most_two_calls config auth_manager params item_type t :
  exists more,
    calls (submit_catalog_request config auth_manager params item_type) t =
    post_call config auth_manager params item_type :: more
    /\ length more <= 1
    /\ Forall (fun c => exists req_id, c = ritm_call config auth_manager req_id)
         more.
Proof.
  unfold calls, run, submit_catalog_request, post_call.
  apply guarded_send; intros.
  - bounded. now eexists.
  - quiet.
Qed.

(** X10.  Once the submission is answered with an object, the lookup is
    issued exactly when the discriminant is the request marker and the
    parent identifier ([sys_id], else [request_id]) is usable; it queries
    by that identifier.  In every other case the submission is the only
    call. *)
Theorem lookup_iff_parent_request config auth_manager params item_type t
  resp result :
  t [] (post_call config auth_manager params item_type) = Response resp ->
  Py.get resp "result" (JObj []) = inr (JObj result) ->
  calls (submit_catalog_request config auth_manager params item_type) t =
  if Py.eq_str (created_table result) "sc_request"
     && Py.truthy (parent_id result)
  then [post_call config auth_manager params item_type;
        ritm_call config auth_manager (parent_id result)]
  else [post_call config auth_manager params item_type].
Proof.
  intros Hpost Hres. unfold calls.
  rewrite (submit_resolution _ _ _ _ _ _ _ Hpost Hres).
  assert (Hleave : forall log e, fst (leave log e) = log).
  { intros log e. unfold leave. now destruct (is_request_exception e). }
  destruct (Py.eq_str (created_table result) "sc_request"); [|reflexivity].
  destruct (Py.truthy (parent_id result)); [|reflexivity].
  cbv zeta. simpl andb. cbv iota.
  destruct (t _ (ritm_call config auth_manager (parent_id result)));
    [apply Hleave|].
  destruct (Py.get body "result" (JList [])) as [e | ritm_list]; [apply Hleave|].
  destruct (Py.truthy ritm_list); [|reflexivity].
  destruct (Py.index0 ritm_list) as [e | first]; [apply Hleave|].
  destruct (Py.get first "sys_id" JNull); [apply Hleave|].
  destruct (Py.get first "number" JNull); [apply Hleave | reflexivity].
Qed.

Lemma lookup_iff_parent_request_witness :
  calls (submit_catalog_request Ex.config Ex.auth Ex.item "item")
        Ex.request_with_item =
  [post_call Ex.config Ex.auth Ex.item "item";
   ritm_call Ex.config Ex.auth (JStr "REQ1")].
Proof.
  exact (lookup_iff_parent_request Ex.config Ex.auth Ex.item "item"
           Ex.request_with_item (Ex.wrap (JObj Ex.request_REQ1)) Ex.request_REQ1
           eq_refl eq_refl).
Defined.

(** X11.  The [table] hint wins over the [record] hint: when [table] is
    non-empty and is not the request marker, the answer is read as a
    direct record even if [record] holds the marker, and no lookup is
    issued. *)
Theorem table_hint_shadows_record config auth_manager params item_type t
  resp result :
  t [] (post_call config auth_manager params item_type) = Response resp ->
  Py.get resp "result" (JObj []) = inr (JObj result) ->
  Py.truthy (field result "table") = true ->
  Py.eq_str (field result "table") "sc_request" = false ->
  run (submit_catalog_request config auth_manager params item_type) t =
  ([post_call config auth_manager params item_type],
   inr (submitted (field result "sys_id")
          (Py.or_ (field result "number") (field result "request_number")))).
Proof.
  intros Hpost Hres Htruthy Hother.
  rewrite (submit_resolution _ _ _ _ _ _ _ Hpost Hres).
  unfold created_table. now rewrite (or_truthy _ _ Htruthy), Hother.
Qed.

Lemma table_hint_shadows_record_witness :
  run (submit_catalog_request Ex.config Ex.auth Ex.producer "producer")
      Ex2.hinted_both =
  ([post_call Ex.config Ex.auth Ex.producer "producer"],
   inr (submitted (JStr "INC7") (JStr "INC0007"))).
Proof.
  exact (table_hint_shadows_record Ex.config Ex.auth Ex.producer "producer"
           Ex2.hinted_both (Ex.wrap (JObj Ex2.conflicting_hints))
           Ex2.conflicting_hints eq_refl eq_refl eq_refl eq_refl).
Defined.

(** X12.  An answered submission that carries no [result] at all is still
    reported as a success: both fields of the SubmissionResult are null
    and the message names the record [None]. *)
Theorem bare_answer_is_success config auth_manager params item_type t body :
  t [] (post_call config auth_manager params item_type) = Response (JObj body) ->
  Py.dict_get body "result" = None ->
  run (submit_catalog_request config auth_manager params item_type) t =
  ([post_call config auth_manager params item_type],
   inr (mk_response true "Submitted catalog request; created record None"
          (Some [("record_id", JNull); ("record_number", JNull)]))).
Proof.
  intros Hpost Hmissing.
  assert (Hres : Py.get (JObj body) "result" (JObj []) = inr (JObj []))
    by (simpl; now rewrite Hmissing).
  now rewrite (submit_resolution _ _ _ _ _ _ _ Hpost Hres).
Qed.

Lemma bare_answer_is_success_witness :
  run (submit_catalog_request Ex.config Ex.auth Ex.item "item") Ex2.bare_answer =
  ([post_call Ex.config Ex.auth Ex.item "item"],
   inr (mk_response true "Submitted catalog request; created record None"
          (Some [("record_id", JNull); ("record_number", JNull)]))).
Proof.
  exact (bare_answer_is_success Ex.config Ex.auth Ex.item "item" Ex2.bare_answer
           [("status", JStr "ok")] eq_refl eq_refl).
Defined.

(** ** Endpoint and headers *)

Lemma append_cancel_l (s x y : string) : (s ++ x = s ++ y)%string -> x = y.
Proof.
  induction s as [|c s IH]; simpl; [auto|]. intros [= H]. now apply IH.
Qed.

Lemma endpoints_differ config params :
  submit_producer_url config params <> order_now_url config params.
Proof.
  unfold submit_producer_url, order_now_url, Py.fstr. simpl. intros H.
  apply append_cancel_l in H. repeat (injection H as H).
  apply append_cancel_l in H. discriminate.
Qed.

(** X13.  The submission goes to the producer endpoint exactly when
    [item_type] is the string [producer] (compared as is, so for instance
    [Producer] is sent to the order-now endpoint); the first call is a
    POST to that endpoint. *)
Theorem producer_endpoint_iff config auth_manager params item_type t :
  (submit_url config params item_type = submit_producer_url config params <->
   item_type = "producer")
  /\ (submit_url config params item_type = order_now_url config params <->
      item_type <> "producer")
  /\ exists more,
       calls (submit_catalog_request config auth_manager params item_type) t =
       mk_call POST (submit_url config params item_type)
         (submit_headers auth_manager) None (Some (JObj (submit_body params)))
       :: more.
Proof.
  pose proof (endpoints_differ config params) as Hdiff.
  split; [|split].
  - unfold submit_url. fold (submit_producer_url config params).
    fold (order_now_url config params).
    destruct (String.eqb_spec item_type "producer") as [-> | Hother].
    + tauto.
    + split; [|contradiction]. intros H. symmetry in H. contradiction.
  - unfold submit_url. fold (submit_producer_url config params).
    fold (order_now_url config params).
    destruct (String.eqb_spec item_type "producer") as [-> | Hother].
    + split; [intros H; contradiction | intros H; now destruct H].
    + tauto.
  - apply (submit_first_call config auth_manager params item_type t).
Qed.

Lemma producer_endpoint_iff_witness :
  submit_url Ex.config Ex.producer "producer" =
  "https://dev.example.com/api/sn_sc/servicecatalog/items/PRD1/submit_producer"
  /\ submit_url Ex.config Ex.producer "Producer" =
     "https://dev.example.com/api/sn_sc/servicecatalog/items/PRD1/order_now".
Proof.
  split.
  - apply (producer_endpoint_iff Ex.config Ex.auth Ex.producer "producer"
             Ex.incident_created). reflexivity.
  - apply (producer_endpoint_iff Ex.config Ex.auth Ex.producer "Producer"
             Ex.incident_created). discriminate.
Defined.

Lemma header_get_set_same (headers : list (string * string)) (k v : string) :
  header_get (Py.dict_set headers k v) k = Some v.
Proof.
  induction headers as [|[k' v'] rest IH]; simpl.
  - now rewrite String.eqb_refl.
  - destruct (String.eqb k' k) eqn:Hk; simpl.
    + now rewrite String.eqb_refl.
    + now rewrite Hk.
Qed.

Lemma header_get_set_other (headers : list (string * string)) (k k' v : string) :
  k' <> k -> header_get (Py.dict_set headers k v) k' = header_get headers k'.
Proof.
  intros Hother. induction headers as [|[k0 v0] rest IH]; simpl.
  - apply String.eqb_neq in Hother. rewrite String.eqb_sym. now rewrite Hother.
  - destruct (String.eqb k0 k) eqn:Hk; simpl.
    + apply String.eqb_eq in Hk. subst k0.
      assert (H : String.eqb k k' = false).
      { apply String.eqb_neq. congruence. }
      now rewrite H.
    + destruct (String.eqb k0 k'); [reflexivity | exact IH].
Qed.

Lemma read_headers_accept auth_manager method url query body :
  accepts_json auth_manager
    (mk_call method url (read_headers auth_manager) query body).
Proof.
  unfold accepts_json, read_headers. cbn [c_headers]. split.
  - apply header_get_set_same.
  - intros k Haccept. now apply header_get_set_other.
Qed.

Lemma write_headers_json auth_manager method url query body :
  sends_json auth_manager
    (mk_call method url (write_headers auth_manager) query body).
Proof.
  unfold sends_json, write_headers, read_headers. cbn [c_headers].
  split; [|split].
  - rewrite header_get_set_other by discriminate. apply header_get_set_same.
  - apply header_get_set_same.
  - intros k Haccept Htype. now rewrite !header_get_set_other.
Qed.

(** X14.  Every call that [list_catalog_items], [get_catalog_item] and
    [list_catalog_categories] issue carries [Accept: application/json],
    and every call that [create_catalog_category],
    [update_catalog_category] and [move_catalog_items] issue carries
    [Accept] and [Content-Type] both set to [application/json], whatever
    the authentication provider put under those names; every other
    header of the provider is sent as it was. *)
Theorem json_headers_on_every_call config auth_manager t c :
  (forall params,
      In c (calls (list_catalog_items config auth_manager params) t) ->
      accepts_json auth_manager c)
  /\ (forall params,
         In c (calls (get_catalog_item config auth_manager params) t) ->
         accepts_json auth_manager c)
  /\ (forall params,
         In c (calls (list_catalog_categories config auth_manager params) t) ->
         accepts_json auth_manager c)
  /\ (forall params,
         In c (calls (create_catalog_category config auth_manager params) t) ->
         sends_json auth_manager c)
  /\ (forall params,
         In c (calls (update_catalog_category config auth_manager params) t) ->
         sends_json auth_manager c)
  /\ (forall params,
         In c (calls (move_catalog_items config auth_manager params) t) ->
         sends_json auth_manager c).
Proof.
  unfold calls, run.
  split; [|split; [|split; [|split; [|split]]]]; intros params Hin.
  - unfold list_catalog_items in Hin.
    rewrite one_call in Hin by (intros; quiet).
    destruct Hin as [<- | []]. apply read_headers_accept.
  - unfold get_catalog_item in Hin.
    rewrite one_call in Hin by (intros; quiet).
    destruct Hin as [<- | []]. apply read_headers_accept.
  - unfold list_catalog_categories in Hin.
    rewrite one_call in Hin by (intros; quiet).
    destruct Hin as [<- | []]. apply read_headers_accept.
  - unfold create_catalog_category in Hin.
    rewrite one_call in Hin by (intros; quiet).
    destruct Hin as [<- | []]. apply write_headers_json.
  - unfold update_catalog_category in Hin.
    rewrite one_call in Hin by (intros; quiet).
    destruct Hin as [<- | []]. apply write_headers_json.
  - change (move_catalog_items config auth_manager params t [])
      with (run (move_catalog_items config auth_manager params) t) in Hin.
    rewrite move_catalog_items_run in Hin. cbv zeta in Hin. cbn [fst] in Hin.
    apply in_map_iff in Hin. destruct Hin as (item_id & <- & _).
    apply write_headers_json.
Qed.

Lemma json_headers_on_every_call_witness :
  sends_json Ex2.crowded_auth
    (patch_call (move_url Ex.config) "CAT1" (write_headers Ex2.crowded_auth) "b")
  /\ header_get
       (c_headers (patch_call (move_url Ex.config) "CAT1"
                     (write_headers Ex2.crowded_auth) "b")) "Authorization"
     = Some "Bearer token".
Proof.
  split; [|reflexivity].
  destruct (json_headers_on_every_call Ex.config Ex2.crowded_auth Ex.second_fails
              (patch_call (move_url Ex.config) "CAT1"
                 (write_headers Ex2.crowded_auth) "b"))
    as (_ & _ & _ & _ & _ & Hmove).
  apply (Hmove Ex.move_three). right. left. reflexivity.
Defined.

(** ** Listing items *)

(** X15.  The query parameters of [list_catalog_items] always carry the
    caller's [limit] and [offset] and the two display switches, and carry
    [sysparm_query] unless no filter applies, that is unless [active] is
    false and both [category] and [query] are missing or empty.  With the
    [active] filter alone the query is [active=true]. *)
Theorem list_query_shape params :
  Py.dict_get (list_query_params params) "sysparm_limit" = Some (JNum (limit params))
  /\ Py.dict_get (list_query_params params) "sysparm_offset"
     = Some (JNum (offset params))
  /\ Py.dict_get (list_query_params params) "sysparm_display_value"
     = Some (JStr "true")
  /\ Py.dict_get (list_query_params params) "sysparm_exclude_reference_link"
     = Some (JStr "true")
  /\ (Py.dict_get (list_query_params params) "sysparm_query" = None <->
      active params = false
      /\ truthy_opt_str (category params) = false
      /\ truthy_opt_str (query params) = false)
  /\ (active params = true ->
      truthy_opt_str (category params) = false ->
      truthy_opt_str (query params) = false ->
      Py.dict_get (list_query_params params) "sysparm_query"
      = Some (JStr "active=true")).
Proof.
  destruct params as [lim off cat qry act]. unfold list_query_params.
  cbn [limit offset category query active].
  destruct act, cat as [[|c cat]|], qry as [[|q qry]|]; cbn;
    repeat split; try reflexivity; try discriminate;
    try (intros (H1 & H2 & H3); discriminate); intros; discriminate.
Qed.

Lemma list_query_shape_witness :
  Py.dict_get (list_query_params Ex2.all_pages) "sysparm_query" = None
  /\ keys (list_query_params Ex2.all_pages)
     = ["sysparm_limit"; "sysparm_offset"; "sysparm_display_value";
        "sysparm_exclude_reference_link"].
Proof.
  split; [|reflexivity].
  apply (list_query_shape Ex2.all_pages). repeat split.
Defined.

(** X16.  When [list_catalog_items] is answered with a list of objects
    (or with no [result] at all, read as the empty list), the returned dict
    reports success, counts the rows in both the message and [total],
    holds one projected item per row in order, and echoes the caller's
    [limit] and [offset]. *)
Theorem list_items_success config auth_manager params t resp items :
  t [] (list_items_call config auth_manager params) = Response resp ->
  Py.get resp "result" (JList []) = inr (JList (map JObj items)) ->
  run (list_catalog_items config auth_manager params) t =
  ([list_items_call config auth_manager params],
   inr [("success", JBool true);
        ("message", JStr (Py.fstr ["Retrieved "; Py.str_of_int (Py.len items);
                                   " catalog items"]));
        ("items", JList (map (fun item => JObj (projection item list_item_fields))
                           items));
        ("total", JNum (Py.len items));
        ("limit", JNum (limit params));
        ("offset", JNum (offset params))]).
Proof.
  intros Hget Hres. unfold run, list_catalog_items.
  change (mk_call GET _ _ _ _) with (list_items_call config auth_manager params).
  rewrite (guarded_answer _ _ _ _ _ Hget). unfold try_except.
  rewrite Hres, bind_lift_inr. cbn [Py.iter].
  rewrite bind_lift_inr, format_items_dicts, bind_lift_inr.
  unfold Py.len. now rewrite length_map.
Qed.

Lemma list_items_success_witness :
  run (list_catalog_items Ex.config Ex.auth Ex.first_page) Ex.two_items =
  ([list_items_call Ex.config Ex.auth Ex.first_page],
   inr [("success", JBool true);
        ("message", JStr "Retrieved 2 catalog items");
        ("items",
         JList [JObj [("sys_id", JStr "A1"); ("name", JStr "Laptop");
                      ("short_description", JStr ""); ("category", JStr "");
                      ("price", JStr ""); ("picture", JStr "");
                      ("active", JStr ""); ("order", JStr "")];
                JObj [("sys_id", JStr ""); ("name", JNull);
                      ("short_description", JStr ""); ("category", JStr "");
                      ("price", JStr ""); ("picture", JStr "");
                      ("active", JStr ""); ("order", JStr "")]]);
        ("total", JNum 2);
        ("limit", JNum 10);
        ("offset", JNum 0)])
  /\ run (list_catalog_items Ex.config Ex.auth Ex2.all_pages) Ex2.no_result =
     ([list_items_call Ex.config Ex.auth Ex2.all_pages],
      inr [("success", JBool true);
           ("message", JStr "Retrieved 0 catalog items");
           ("items", JList []);
           ("total", JNum 0);
           ("limit", JNum 50);
           ("offset", JNum 100)]).
Proof.
  split.
  - exact (list_items_success Ex.config Ex.auth Ex.first_page Ex.two_items
             (Ex.wrap (JList [JObj [("sys_id", JStr "A1"); ("name", JStr "Laptop")];
                              JObj [("name", JNull); ("extra", JNum 7)]]))
             [[("sys_id", JStr "A1"); ("name", JStr "Laptop")];
              [("name", JNull); ("extra", JNum 7)]]
             eq_refl eq_refl).
  - exact (list_items_success Ex.config Ex.auth Ex2.all_pages Ex2.no_result
             (JObj [("status", JStr "ok")]) [] eq_refl eq_refl).
Defined.

(** X17.  When the [result] answered to [list_catalog_items] is null, a
    number or a boolean, the loop over it raises [TypeError], which the
    handler does not catch: the caller gets the exception, not a dict. *)
Theorem list_items_not_iterable config auth_manager params t resp items :
  t [] (list_items_call config auth_manager params) = Response resp ->
  Py.get resp "result" (JList []) = inr items ->
  not_iterable items ->
  run (list_catalog_items config auth_manager params) t =
  ([list_items_call config auth_manager params],
   inl (TypeError (Py.fstr ["'"; Py.type_name items; "' object is not iterable"]))).
Proof.
  intros Hget Hres Hitems. unfold run, list_catalog_items.
  change (mk_call GET _ _ _ _) with (list_items_call config auth_manager params).
  rewrite (guarded_answer _ _ _ _ _ Hget). unfold try_except.
  rewrite Hres, bind_lift_inr.
  destruct items; try contradiction; reflexivity.
Qed.

Lemma list_items_not_iterable_witness :
  run (list_catalog_items Ex.config Ex.auth Ex2.all_pages) Ex2.null_result =
  ([list_items_call Ex.config Ex.auth Ex2.all_pages],
   inl (TypeError "'NoneType' object is not iterable")).
Proof.
  exact (list_items_not_iterable Ex.config Ex.auth Ex2.all_pages Ex2.null_result
           (Ex.wrap JNull) JNull eq_refl eq_refl I).
Defined.

(** ** Getting one item *)

(** X18.  When the [result] answered to [get_catalog_item] is non-empty
    but not an object (a list of rows, a string, a number), reading its
    fields raises [AttributeError], which the handler does not catch. *)
Theorem get_item_not_an_object config auth_manager params t resp item :
  t [] (get_item_call config auth_manager params) = Response resp ->
  Py.get resp "result" (JObj []) = inr item ->
  Py.truthy item = true ->
  not_an_object item ->
  run (get_catalog_item config auth_manager params) t =
  ([get_item_call config auth_manager params],
   inl (AttributeError
          (Py.fstr ["'"; Py.type_name item; "' object has no attribute 'get'"]))).
Proof.
  intros Hget Hres Htruthy Hitem. unfold run, get_catalog_item.
  change (mk_call GET _ _ _ _) with (get_item_call config auth_manager params).
  rewrite (guarded_answer _ _ _ _ _ Hget). unfold try_except.
  rewrite Hres, bind_lift_inr, Htruthy. cbn [negb].
  destruct item; try contradiction; reflexivity.
Qed.

Lemma get_item_not_an_object_witness :
  run (get_catalog_item Ex.config Ex.auth Ex.get_item) Ex2.rows_as_list =
  ([get_item_call Ex.config Ex.auth Ex.get_item],
   inl (AttributeError "'list' object has no attribute 'get'")).
Proof.
  exact (get_item_not_an_object Ex.config Ex.auth Ex.get_item Ex2.rows_as_list
           (Ex.wrap (JList [JObj [("sys_id", JStr "A1")]]))
           (JList [JObj [("sys_id", JStr "A1")]]) eq_refl eq_refl eq_refl I).
Defined.

(** ** The projection reads the fixed keys and nothing else *)

Lemma project_agree (item1 item2 : dict) (fields : list (string * string)) :
  (forall key, In key (map snd fields) ->
               Py.dict_get item1 key = Py.dict_get item2 key) ->
  project (JObj item1) fields = project (JObj item2) fields.
Proof.
  induction fields as [|[name key] rest IH]; intros Hagree; [reflexivity|].
  cbn [project Py.get]. rewrite (Hagree key) by now left.
  rewrite IH; [reflexivity|]. intros k Hk. apply Hagree. now right.
Qed.

(** X19.  The projection depends on the payload only through the fixed
    keys: two payloads that agree on those keys are projected alike, a
    binding under any other key changes nothing, and the projected dict
    always has the fixed names in the fixed order. *)
Theorem projection_ignores_other_keys (fields : list (string * string)) :
  (forall item1 item2,
      (forall key, In key (map snd fields) ->
                   Py.dict_get item1 key = Py.dict_get item2 key) ->
      project (JObj item1) fields = project (JObj item2) fields)
  /\ (forall item k v,
         ~ In k (map snd fields) ->
         project (JObj ((k, v) :: item)) fields = project (JObj item) fields)
  /\ (forall item, exists d,
         project (JObj item) fields = inr d /\ keys d = map fst fields).
Proof.
  split; [|split].
  - intros item1 item2. apply project_agree.
  - intros item k v Hfresh. apply project_agree. intros key Hkey.
    cbn [Py.dict_get]. destruct (String.eqb_spec k key) as [-> | _];
      [contradiction | reflexivity].
  - intros item. exists (projection item fields). split; [apply project_dict|].
    unfold keys, projection. rewrite map_map. reflexivity.
Qed.

Lemma projection_ignores_other_keys_witness :
  project (JObj [("sys_updated_on", JStr "2024-01-01"); ("name", JStr "Laptop")])
    list_item_fields
  = project (JObj [("name", JStr "Laptop")]) list_item_fields.
Proof.
  apply (projection_ignores_other_keys list_item_fields).
  simpl. intuition discriminate.
Defined.

(** ** The category operations *)

Lemma format_categories_dicts (categories : list dict) :
  format_categories (map JObj categories) =
  inr (map (fun c => JObj (projection c category_fields)) categories).
Proof.
  induction categories as [|c rest IH]; [reflexivity|].
  cbn [map format_categories]. now rewrite project_dict, IH.
Qed.

(** X20.  Each category operation issues exactly one call whatever the
    remote side answers: the GET of the category table, the POST of the
    new category, the PATCH of the category named by [category_id]. *)
Theorem category_operations_single_call config auth_manager t :
  (forall params,
      calls (list_catalog_categories config auth_manager params) t =
      [categories_call config auth_manager params])
  /\ (forall params,
         calls (create_catalog_category config auth_manager params) t =
         [create_call config auth_manager params])
  /\ (forall params,
         calls (update_catalog_category config auth_manager params) t =
         [update_call config auth_manager params]).
Proof.
  unfold calls, run. repeat split; intros params.
  - unfold list_catalog_categories, categories_call, read_headers.
    apply one_call; intros; quiet.
  - unfold create_catalog_category, create_call, write_headers, read_headers.
    apply one_call; intros; quiet.
  - unfold update_catalog_category, update_call, write_headers, read_headers.
    apply one_call; intros; quiet.
Qed.

(** X21.  A transport failure on the single call of a category operation
    is reported, not raised: the list returns a dict with [success] false,
    no categories, a total of zero and the caller's [limit] and [offset];
    create and update return a failed outcome with null data.  Each
    message ends with the text of the failure. *)
Theorem category_operations_transport_failure config auth_manager t msg :
  (forall params,
      t [] (categories_call config auth_manager params) = Failed msg ->
      outcome (list_catalog_categories config auth_manager params) t =
      inr [("success", JBool false);
           ("message", JStr (Py.fstr ["Error listing catalog categories: "; msg]));
           ("categories", JList []);
           ("total", JNum 0);
           ("limit", JNum (ListCategories.limit params));
           ("offset", JNum (ListCategories.offset params))])
  /\ (forall params,
         t [] (create_call config auth_manager params) = Failed msg ->
         outcome (create_catalog_category config auth_manager params) t =
         inr (mk_response false
                (Py.fstr ["Error creating catalog category: "; msg]) None))
  /\ (forall params,
         t [] (update_call config auth_manager params) = Failed msg ->
         outcome (update_catalog_category config auth_manager params) t =
         inr (mk_response false
                (Py.fstr ["Error updating catalog category: "; msg]) None)).
Proof.
  unfold outcome, run. repeat split; intros params Hfail.
  - unfold list_catalog_categories.
    change (mk_call GET _ _ _ _)
      with (categories_call config auth_manager params).
    now rewrite (guarded_failure _ _ _ _ _ Hfail).
  - unfold create_catalog_category.
    change (mk_call POST _ _ _ _) with (create_call config auth_manager params).
    now rewrite (guarded_failure _ _ _ _ _ Hfail).
  - unfold update_catalog_category.
    change (mk_call PATCH _ _ _ _) with (update_call config auth_manager params).
    now rewrite (guarded_failure _ _ _ _ _ Hfail).
Qed.

Lemma category_operations_transport_failure_witness :
  outcome (update_catalog_category Ex.config Ex.auth Ex2.rename) Ex2.down =
  inr (mk_response false
         "Error updating catalog category: 503 Server Error" None).
Proof.
  apply (category_operations_transport_failure Ex.config Ex.auth Ex2.down
           "503 Server Error").
  reflexivity.
Defined.

(** X22.  When [list_catalog_categories] is answered with a list of
    objects, the returned dict reports success, counts the rows in the
    message and in [total], holds one projected category per row in order
    (seven fields each, the empty string for a missing one), and echoes
    the caller's [limit] and [offset]. *)
Theorem list_categories_success config auth_manager params t resp categories :
  t [] (categories_call config auth_manager params) = Response resp ->
  Py.get resp "result" (JList []) = inr (JList (map JObj categories)) ->
  run (list_catalog_categories config auth_manager params) t =
  ([categories_call config auth_manager params],
   inr [("success", JBool true);
        ("message", JStr (Py.fstr ["Retrieved ";
                                   Py.str_of_int (Py.len categories);
                                   " catalog categories"]));
        ("categories",
         JList (map (fun c => JObj (projection c category_fields)) categories));
        ("total", JNum (Py.len categories));
        ("limit", JNum (ListCategories.limit params));
        ("offset", JNum (ListCategories.offset params))]).
Proof.
  intros Hget Hres. unfold run, list_catalog_categories.
  change (mk_call GET _ _ _ _) with (categories_call config auth_manager params).
  rewrite (guarded_answer _ _ _ _ _ Hget). unfold try_except.
  rewrite Hres, bind_lift_inr. cbn [Py.iter].
  rewrite bind_lift_inr, format_categories_dicts, bind_lift_inr.
  unfold Py.len. now rewrite length_map.
Qed.

Lemma list_categories_success_witness :
  run (list_catalog_categories Ex.config Ex.auth Ex2.categories_page)
      Ex2.categories_listed =
  ([categories_call Ex.config Ex.auth Ex2.categories_page],
   inr [("success", JBool true);
        ("message", JStr "Retrieved 2 catalog categories");
        ("categories",
         JList [JObj (projection Ex2.category_row category_fields);
                JObj (projection [] category_fields)]);
        ("total", JNum 2);
        ("limit", JNum 10);
        ("offset", JNum 0)]).
Proof.
  exact (list_categories_success Ex.config Ex.auth Ex2.categories_page
           Ex2.categories_listed
           (Ex.wrap (JList [JObj Ex2.category_row; JObj []]))
           [Ex2.category_row; []] eq_refl eq_refl).
Defined.

(** X23.  The query of [list_catalog_categories] carries the caller's
    [limit] and [offset]; [sysparm_query] is left out exactly when
    [active] is false and [query] is missing or empty, and with both
    filters it is [active=true], then the search over title and
    description, joined by [^]. *)
Theorem categories_query_shape params :
  Py.dict_get (categories_query_params params) "sysparm_limit"
  = Some (JNum (ListCategories.limit params))
  /\ Py.dict_get (categories_query_params params) "sysparm_offset"
     = Some (JNum (ListCategories.offset params))
  /\ (Py.dict_get (categories_query_params params) "sysparm_query" = None <->
      ListCategories.active params = false
      /\ truthy_opt_str (ListCategories.query params) = false)
  /\ (forall q, ListCategories.active params = true ->
                ListCategories.query params = Some q -> q <> "" ->
      Py.dict_get (categories_query_params params) "sysparm_query"
      = Some (JStr (Py.fstr ["active=true^titleLIKE"; q; "^ORdescriptionLIKE"; q]))).
Proof.
  destruct params as [lim off qry act]. unfold categories_query_params.
  cbn [ListCategories.limit ListCategories.offset ListCategories.query
       ListCategories.active].
  destruct act, qry as [[|c q]|]; cbn;
    repeat split; try reflexivity; try discriminate;
    try (intros (H1 & H2); discriminate);
    try (intros q' _ [= <-] Hq; try contradiction; reflexivity);
    intros; discriminate.
Qed.

Lemma categories_query_shape_witness :
  Py.dict_get (categories_query_params Ex2.categories_page) "sysparm_query"
  = Some (JStr "active=true^titleLIKElap^ORdescriptionLIKElap").
Proof.
  destruct (categories_query_shape Ex2.categories_page) as (_ & _ & _ & Hboth).
  apply (Hboth "lap"); [reflexivity | reflexivity | discriminate].
Defined.

(** X24.  The body of [create_catalog_category] always holds [title] and
    [active] (as [true] or [false] in lower case); [description],
    [parent] and [icon] are present exactly when given and hold the given
    text; [order] is present exactly when given and holds its decimal
    text.  No other key is ever sent. *)
Theorem create_body_shape params :
  Py.dict_get (create_body params) "title"
  = Some (JStr (CreateCategory.title params))
  /\ Py.dict_get (create_body params) "active"
     = Some (JStr (if CreateCategory.active params then "true" else "false"))
  /\ Py.dict_get (create_body params) "description"
     = given (CreateCategory.description params) (fun s => s)
  /\ Py.dict_get (create_body params) "parent"
     = given (CreateCategory.parent params) (fun s => s)
  /\ Py.dict_get (create_body params) "icon"
     = given (CreateCategory.icon params) (fun s => s)
  /\ Py.dict_get (create_body params) "order"
     = given (CreateCategory.order params) Py.str_of_int
  /\ incl (keys (create_body params))
       ["title"; "description"; "parent"; "icon"; "active"; "order"].
Proof.
  destruct params as [ttl desc par ico act ord]. unfold create_body, keys.
  cbn [CreateCategory.title CreateCategory.description CreateCategory.parent
       CreateCategory.icon CreateCategory.active CreateCategory.order].
  destruct desc, par, ico, ord; cbn; repeat split; try reflexivity;
    intros k Hk; cbn in *; intuition.
Qed.

Lemma create_body_shape_witness :
  create_body Ex2.new_category =
  [("title", JStr "Hardware"); ("parent", JStr "ROOT");
   ("active", JStr "false"); ("order", JStr "20")]
  /\ Py.dict_get (create_body Ex2.new_category) "order" = Some (JStr "20").
Proof.
  split; [reflexivity|].
  apply (create_body_shape Ex2.new_category).
Defined.

(** X25.  An answered [create_catalog_category] is always reported as a
    success when the [result] of the answer is an object: the data is the
    projection of that object and the message names the title the caller
    asked for, not the one the remote side stored.  With no [result] at
    all the data holds seven empty strings. *)
Theorem create_category_success config auth_manager params t resp category :
  t [] (create_call config auth_manager params) = Response resp ->
  Py.get resp "result" (JObj []) = inr (JObj category) ->
  run (create_catalog_category config auth_manager params) t =
  ([create_call config auth_manager params],
   inr (mk_response true
          (Py.fstr ["Created catalog category: "; CreateCategory.title params])
          (Some (projection category category_fields)))).
Proof.
  intros Hpost Hres. unfold run, create_catalog_category.
  change (mk_call POST _ _ _ _) with (create_call config auth_manager params).
  rewrite (guarded_answer _ _ _ _ _ Hpost). unfold try_except.
  now rewrite Hres, bind_lift_inr, project_dict, bind_lift_inr.
Qed.

Lemma create_category_success_witness :
  run (create_catalog_category Ex.config Ex.auth Ex2.new_category)
      Ex2.acknowledged =
  ([create_call Ex.config Ex.auth Ex2.new_category],
   inr (mk_response true "Created catalog category: Hardware"
          (Some [("sys_id", JStr ""); ("title", JStr ""); ("description", JStr "");
                 ("parent", JStr ""); ("icon", JStr ""); ("active", JStr "");
                 ("order", JStr "")]))).
Proof.
  exact (create_category_success Ex.config Ex.auth Ex2.new_category
           Ex2.acknowledged (JObj [("status", JStr "ok")]) [] eq_refl eq_refl).
Defined.

(** X26.  The body of [update_catalog_category] holds exactly the fields
    the caller gave: each of [title], [description], [parent], [icon]
    with its text, [active] as [true] or [false] in lower case, [order]
    as decimal text.  An update that gives nothing sends the empty
    object. *)
Theorem update_body_shape params :
  Py.dict_get (update_body params) "title"
  = given (UpdateCategory.title params) (fun s => s)
  /\ Py.dict_get (update_body params) "description"
     = given (UpdateCategory.description params) (fun s => s)
  /\ Py.dict_get (update_body params) "parent"
     = given (UpdateCategory.parent params) (fun s => s)
  /\ Py.dict_get (update_body params) "icon"
     = given (UpdateCategory.icon params) (fun s => s)
  /\ Py.dict_get (update_body params) "active"
     = given (UpdateCategory.active params) str_lower_bool
  /\ Py.dict_get (update_body params) "order"
     = given (UpdateCategory.order params) Py.str_of_int
  /\ incl (keys (update_body params))
       ["title"; "description"; "parent"; "icon"; "active"; "order"]
  /\ (update_body params = [] <->
      UpdateCategory.title params = None
      /\ UpdateCategory.description params = None
      /\ UpdateCategory.parent params = None
      /\ UpdateCategory.icon params = None
      /\ UpdateCategory.active params = None
      /\ UpdateCategory.order params = None).
Proof.
  destruct params as [cid ttl desc par ico act ord]. unfold update_body, keys.
  cbn [UpdateCategory.title UpdateCategory.description UpdateCategory.parent
       UpdateCategory.icon UpdateCategory.active UpdateCategory.order].
  destruct ttl, desc, par, ico, act, ord; cbn;
    repeat split; try reflexivity; try discriminate;
    try (intros k Hk; cbn in *; intuition);
    try (intros (H1 & H2 & H3 & H4 & H5 & H6); discriminate).
Qed.

Lemma update_body_shape_witness :
  update_body Ex2.no_change = []
  /\ Py.dict_get (update_body Ex2.rename) "active" = Some (JStr "true").
Proof.
  split.
  - apply (update_body_shape Ex2.no_change). repeat split.
  - apply (update_body_shape Ex2.rename).
Defined.

(** X27.  An answered [update_catalog_category] whose [result] is an
    object is reported as a success: the data is the projection of that
    object and the message names the [category_id] of the request. *)
Theorem update_category_success config auth_manager params t resp category :
  t [] (update_call config auth_manager params) = Response resp ->
  Py.get resp "result" (JObj []) = inr (JObj category) ->
  run (update_catalog_category config auth_manager params) t =
  ([update_call config auth_manager params],
   inr (mk_response true
          (Py.fstr ["Updated catalog category: ";
                    UpdateCategory.category_id params])
          (Some (projection category category_fields)))).
Proof.
  intros Hpatch Hres. unfold run, update_catalog_category.
  change (mk_call PATCH _ _ _ _) with (update_call config auth_manager params).
  rewrite (guarded_answer _ _ _ _ _ Hpatch). unfold try_except.
  now rewrite Hres, bind_lift_inr, project_dict, bind_lift_inr.
Qed.

Lemma update_category_success_witness :
  run (update_catalog_category Ex.config Ex.auth Ex2.rename) Ex2.category_stored =
  ([update_call Ex.config Ex.auth Ex2.rename],
   inr (mk_response true "Updated catalog category: CAT1"
          (Some [("sys_id", JStr "CAT1"); ("title", JStr "Laptops");
                 ("description", JStr ""); ("parent", JStr ""); ("icon", JStr "");
                 ("active", JStr "true"); ("order", JStr "")]))).
Proof.
  exact (update_category_success Ex.config Ex.auth Ex2.rename Ex2.category_stored
           (Ex.wrap (JObj Ex2.category_row)) Ex2.category_row eq_refl eq_refl).
Defined.

(** ** Moving items *)

(** X28.  [move_catalog_items] patches every item id, in the order given
    and once per occurrence, whatever the earlier calls answered: a failed
    item does not stop the rest.  Each call is a PATCH of the item whose
    body is the target category alone, and the operation never raises. *)
Theorem move_patches_every_item config auth_manager params t :
  calls (move_catalog_items config auth_manager params) t =
  map (patch_call (move_url config) (target_category_id params)
         (write_headers auth_manager))
      (item_ids params)
  /\ (forall c, In c (calls (move_catalog_items config auth_manager params) t) ->
      c_method c = PATCH
      /\ c_json c = Some (JObj [("category", JStr (target_category_id params))]))
  /\ length (calls (move_catalog_items config auth_manager params) t)
     = length (item_ids params)
  /\ exists r, outcome (move_catalog_items config auth_manager params) t = inr r.
Proof.
  unfold calls, outcome. rewrite move_catalog_items_run. cbv zeta. cbn [fst snd].
  split; [reflexivity|]. split; [|split].
  - intros c Hc. apply in_map_iff in Hc. destruct Hc as (item_id & <- & _).
    now split.
  - apply length_map.
  - now eexists.
Qed.
